(** * A shallow embedding of [main.py], the Qwen2:7b (Ollama) HTTP service

    The service is a FastAPI application with four routes ([/health],
    [POST /v1/chat], [POST /v1/analyze], [GET /v1/analyze]) in front of an
    Ollama chat endpoint.  This file embeds the helpers and the route
    handlers of [main.py] as Rocq functions and states the specification's
    properties about them.

    Conventions of the embedding:
    - a Python [str] is the list of its Unicode code points ([list N]);
    - a Python object that comes out of [json.loads], or goes into a JSON
      payload, is a value of [pyobj]; a [dict] is an association list in
      insertion order;
    - a raised exception is a value of [Exc]; code that may raise returns a
      [Result];
    - the one effect of the program, [requests.post], is an explicit
      transition on the log of requests sent so far, answered by a
      [backend] oracle. *)

From Stdlib Require Import List NArith ZArith String Ascii Bool Lia.
From Stdlib Require Import SpecFloat.
Import ListNotations.

Local Open Scope N_scope.

(** ** Python strings *)

Definition char := N.
Definition str := list char.

(** [ch "a"] is the code point of an ASCII character. *)
Definition ch (a : ascii) : char := N_of_ascii a.

(** String literals of the source are written in this file in UTF-8;
    [utf8_decode] turns the bytes of a literal into its code points. *)
Fixpoint utf8_decode (bs : list N) : str :=
  match bs with
  | [] => []
  | b0 :: r0 =>
      if b0 <? 128 then b0 :: utf8_decode r0
      else if b0 <? 224 then
        match r0 with
        | b1 :: r1 => ((b0 - 192) * 64 + (b1 - 128)) :: utf8_decode r1
        | _ => [65533]
        end
      else if b0 <? 240 then
        match r0 with
        | b1 :: b2 :: r2 =>
            ((b0 - 224) * 4096 + (b1 - 128) * 64 + (b2 - 128)) :: utf8_decode r2
        | _ => [65533]
        end
      else
        match r0 with
        | b1 :: b2 :: b3 :: r3 =>
            ((b0 - 240) * 262144 + (b1 - 128) * 4096 + (b2 - 128) * 64 + (b3 - 128))
              :: utf8_decode r3
        | _ => [65533]
        end
  end.

Definition py (s : string) : str :=
  utf8_decode (map N_of_ascii (list_ascii_of_string s)).

(** The double quote, and a quoted word, for literals that contain quotes. *)
Definition dq : str := [34].
Definition quoted (s : string) : str := dq ++ py s ++ dq.

Definition char_eqb (a b : char) : bool := N.eqb a b.

Fixpoint str_eqb (a b : str) : bool :=
  match a, b with
  | [], [] => true
  | x :: a', y :: b' => char_eqb x y && str_eqb a' b'
  | _, _ => false
  end.

(** [s[:n]] *)
Definition slice_to (n : nat) (s : str) : str := firstn n s.

(** [str.isspace] on one code point, as CPython's [_PyUnicode_IsWhitespace]. *)
Definition is_space (c : char) : bool :=
  ((9 <=? c) && (c <=? 13)) || ((28 <=? c) && (c <=? 32))
  || (c =? 133) || (c =? 160) || (c =? 5760)
  || ((8192 <=? c) && (c <=? 8202))
  || (c =? 8232) || (c =? 8233) || (c =? 8239) || (c =? 8287) || (c =? 12288).

Fixpoint lstrip (s : str) : str :=
  match s with
  | c :: s' => if is_space c then lstrip s' else s
  | [] => []
  end.

Definition rstrip (s : str) : str := rev (lstrip (rev s)).

(** [s.strip()] *)
Definition strip (s : str) : str := rstrip (lstrip s).

(** [s.lower()] restricted to ASCII: the case mapping of the letters A-Z.
    The full Unicode mapping is a parameter of the service below; this is
    what it does on ASCII text. *)
Definition ascii_lower_char (c : char) : char :=
  if (65 <=? c) && (c <=? 90) then c + 32 else c.

Definition ascii_lower (s : str) : str := map ascii_lower_char s.

Definition is_ascii (s : str) : Prop := Forall (fun c => c < 128) s.

(** ** Regular expressions: the fragment of [re] that [main.py] uses

    A pattern is a sequence of items; [DotStar] is [.*] under [re.S], where
    the dot matches every character, the newline included.  [match_here]
    is the backtracking matcher anchored at the start of its input: the
    greedy star first tries to take one more character and gives it back
    when the rest of the pattern fails.  It returns the matched text,
    [m.group(0)]. *)

Inductive re_item :=
| Chr (c : char)
| DotStar.

Definition pattern := list re_item.

Fixpoint match_here (p : pattern) : str -> option str :=
  match p with
  | [] => fun _ => Some []
  | Chr c :: p' =>
      fun s =>
        match s with
        | x :: s' => if char_eqb x c then option_map (cons x) (match_here p' s')
                     else None
        | [] => None
        end
  | DotStar :: p' =>
      fix star (s : str) : option str :=
        match s with
        | [] => match_here p' []
        | x :: s' =>
            match star s' with
            | Some m => Some (x :: m)
            | None => match_here p' s
            end
        end
  end.

(** [re.search]: the match at the leftmost position that has one. *)
Fixpoint re_search (p : pattern) (s : str) : option str :=
  match match_here p s with
  | Some m => Some m
  | None =>
      match s with
      | [] => None
      | _ :: s' => re_search p s'
      end
  end.

Definition LBRACE : char := ch "{".
Definition RBRACE : char := ch "}".

(** [r"\{.*\}"] *)
Definition JSON_RE : pattern := [Chr LBRACE; DotStar; Chr RBRACE].

(** [_extract_json], main.py lines 95-97. *)
Definition _extract_json (text : str) : str :=
  match re_search JSON_RE text with
  | Some m => m
  | None => text
  end.

(** ** Python objects *)

(** The objects that [json.loads] builds and that a JSON payload holds.  A
    [float] is an IEEE 754 binary64 value. *)
#[local] Set Warnings "-register-all".
Inductive pyobj :=
| PyNone
| PyBool (b : bool)
| PyInt (z : Z)
| PyFloat (f : spec_float)
| PyStr (s : str)
| PyList (l : list pyobj)
| PyDict (d : list (str * pyobj)).

Definition dict := list (str * pyobj).

(** [d.get(k)]: [None] of the option type is an absent key. *)
Fixpoint dict_lookup (d : dict) (k : str) : option pyobj :=
  match d with
  | [] => None
  | (k', v) :: d' => if str_eqb k' k then Some v else dict_lookup d' k
  end.

(** [d[k] = v]: an existing key keeps its place, a new one goes last. *)
Fixpoint dict_set (d : dict) (k : str) (v : pyobj) : dict :=
  match d with
  | [] => [(k, v)]
  | (k', v') :: d' => if str_eqb k' k then (k', v) :: d' else (k', v') :: dict_set d' k v
  end.

(** Truth value of an object, as [bool(o)] and the operator [or] test it. *)
Definition truthy (o : pyobj) : bool :=
  match o with
  | PyNone => false
  | PyBool b => b
  | PyInt z => negb (Z.eqb z 0)
  | PyFloat (S754_zero _) => false
  | PyFloat _ => true
  | PyStr [] => false
  | PyStr _ => true
  | PyList [] => false
  | PyList _ => true
  | PyDict [] => false
  | PyDict _ => true
  end.

(** [a or b] *)
Definition py_or (a b : pyobj) : pyobj := if truthy a then a else b.

(** [x or default] for an [Optional[str]] *)
Definition str_or (x : option str) (default : str) : str :=
  match x with
  | Some (c :: s) => c :: s
  | _ => default
  end.

(** ** Exceptions *)

(** The [msg] of a [json.JSONDecodeError]. *)
Inductive json_error :=
| ExpectingValue
| ExtraData
| UnexpectedBOM
| UnterminatedString
| InvalidControlCharacter
| InvalidEscape
| InvalidUnicodeEscape
| ExpectingPropertyName
| ExpectingColon
| ExpectingComma.

(** The [type] of one line of a pydantic [ValidationError]. *)
Inductive field_error :=
| missing
| string_type
| literal_error.

(** Exceptions raised by the interpreter and the libraries. *)
Inductive LibExc :=
| JSONDecodeError (msg : json_error)
| RecursionError
| ValueError
| TypeError
| AttributeError
| ValidationError (errors : list (str * field_error))
| RequestException (info : str).

(** An f-string: literal text and the [str()] of a caught exception, whose
    wording belongs to the library that raised it. *)
Inductive fpart :=
| FStr (s : str)
| FExc (e : LibExc).

Definition fstring := list fpart.

Inductive Exc :=
| Lib (e : LibExc)
| HTTPException (status_code : Z) (detail : fstring).

(** The outcome of a call: a value, or a raised exception.  Library code
    raises a [LibExc]; the service's own functions raise an [Exc]. *)
Inductive Result (E A : Type) :=
| Return (a : A)
| Raise (e : E).

Arguments Return {E A} a.
Arguments Raise {E A} e.

(** What the interpreter and the libraries decide for the service. *)
Record Runtime := {
  (** [os.environ], after [load_dotenv()] *)
  environ : str -> option str;
  (** [str.lower] *)
  str_lower : str -> str;
  (** nested arrays and objects the JSON scanner may enter *)
  recursion_limit : nat;
  (** [sys.get_int_max_str_digits()], 0 for no limit *)
  int_max_str_digits : nat;
  (** [float(s)] on a JSON number literal *)
  float_of_str : str -> spec_float
}.

(** ** [json.loads]

    The decoder of CPython's [json] package with its default settings
    (strict mode, no hooks), as the scanner of [Modules/_json.c] runs it.
    Positions in the text are replaced by the text that remains to be read.
    Three things are left to the interpreter that runs the service and come
    from the [Runtime]: the number of nested arrays and objects it lets the
    scanner enter before [RecursionError], the longest integer literal
    [int()] converts before [ValueError], and the conversion of a decimal
    literal to a float.  A scanner that runs out of text stops with
    [StopIteration], which the decoder reports as the [JSONDecodeError]
    "Expecting value"; the model raises that error at once. *)

Definition is_json_ws (c : char) : bool :=
  (c =? 32) || (c =? 9) || (c =? 10) || (c =? 13).

Fixpoint skip_ws (s : str) : str :=
  match s with
  | c :: s' => if is_json_ws c then skip_ws s' else s
  | [] => []
  end.

Definition is_digit (c : char) : bool := (48 <=? c) && (c <=? 57).

Definition hex_digit (c : char) : option N :=
  if (48 <=? c) && (c <=? 57) then Some (c - 48)
  else if (97 <=? c) && (c <=? 102) then Some (c - 97 + 10)
  else if (65 <=? c) && (c <=? 70) then Some (c - 65 + 10)
  else None.

Definition hex4 (a b c d : char) : option N :=
  match hex_digit a, hex_digit b, hex_digit c, hex_digit d with
  | Some x, Some y, Some z, Some w => Some (((x * 16 + y) * 16 + z) * 16 + w)
  | _, _, _, _ => None
  end.

Definition is_high_surrogate (c : N) : bool := (55296 <=? c) && (c <=? 56319).
Definition is_low_surrogate (c : N) : bool := (56320 <=? c) && (c <=? 57343).
Definition join_surrogates (hi lo : N) : N :=
  65536 + (hi - 55296) * 1024 + (lo - 56320).

Definition json_fail {A} (e : json_error) : Result LibExc A :=
  Raise (JSONDecodeError e).

(** A backslash escape other than [\u]. *)
Definition simple_escape (c : char) : option char :=
  if c =? 34 then Some c
  else if c =? 92 then Some c
  else if c =? ch "/" then Some c
  else if c =? ch "b" then Some 8
  else if c =? ch "f" then Some 12
  else if c =? ch "n" then Some 10
  else if c =? ch "r" then Some 13
  else if c =? ch "t" then Some 9
  else None.

(** [scanstring], entered after the opening quote.  [acc] holds the
    characters read so far, last first.  The result is the string and the
    text after its closing quote. *)
Fixpoint scanstring (s : str) (acc : str) : Result LibExc (str * str) :=
  match s with
  | [] => json_fail UnterminatedString
  | c :: r =>
      if c =? 34 then Return (rev acc, r)
      else if c =? 92 then
        match r with
        | [] => json_fail UnterminatedString
        | e :: r1 =>
            if e =? ch "u" then
              match r1 with
              | h1 :: h2 :: h3 :: h4 :: ((_ :: _) as r2) =>
                  match hex4 h1 h2 h3 h4 with
                  | None => json_fail InvalidUnicodeEscape
                  | Some u =>
                      if is_high_surrogate u then
                        match r2 with
                        | b :: u' :: g1 :: g2 :: g3 :: g4 :: ((_ :: _) as r3) =>
                            if (b =? 92) && (u' =? ch "u") then
                              match hex4 g1 g2 g3 g4 with
                              | None => json_fail InvalidUnicodeEscape
                              | Some u2 =>
                                  if is_low_surrogate u2
                                  then scanstring r3 (join_surrogates u u2 :: acc)
                                  else scanstring r2 (u :: acc)
                              end
                            else scanstring r2 (u :: acc)
                        | _ => scanstring r2 (u :: acc)
                        end
                      else scanstring r2 (u :: acc)
                  end
              | _ => json_fail InvalidUnicodeEscape
              end
            else
              match simple_escape e with
              | Some x => scanstring r1 (x :: acc)
              | None => json_fail InvalidEscape
              end
        end
      else if c <=? 31 then json_fail InvalidControlCharacter
      else scanstring r (c :: acc)
  end.

(** The longest run of digits at the head of a text, and the rest. *)
Fixpoint span_digits (s : str) : str * str :=
  match s with
  | c :: s' =>
      if is_digit c then let (ds, r) := span_digits s' in (c :: ds, r)
      else ([], s)
  | [] => ([], [])
  end.

(** The value of a run of decimal digits. *)
Definition digits_value (ds : str) : Z :=
  fold_left (fun acc c => (10 * acc + (Z.of_N c - 48))%Z) ds 0%Z.

(** A number literal at the head of a text: an optional minus sign; the
    digit 0 or a run of digits that starts with 1-9; an optional fraction, a
    dot and one digit or more; an optional exponent, e or E, an optional
    sign and one digit or more.  It is split into sign, integer digits,
    fraction-and-exponent text, and the rest. *)
Definition match_number (s : str) : option (bool * str * str * str) :=
  let (neg, s1) :=
    match s with
    | c :: r => if c =? ch "-" then (true, r) else (false, s)
    | [] => (false, s)
    end in
  let int_part :=
    match s1 with
    | c :: r =>
        if (49 <=? c) && (c <=? 57) then
          let (ds, r') := span_digits r in Some (c :: ds, r')
        else if c =? 48 then Some ([c], r)
        else None
    | [] => None
    end in
  match int_part with
  | None => None
  | Some (ds, r1) =>
      let (frac, r2) :=
        match r1 with
        | p :: d :: r =>
            if (p =? ch ".") && is_digit d then
              let (fs, r') := span_digits r in (p :: d :: fs, r')
            else ([], r1)
        | _ => ([], r1)
        end in
      let (exp, r3) :=
        match r2 with
        | e :: r =>
            if (e =? ch "e") || (e =? ch "E") then
              let (sign, r') :=
                match r with
                | g :: ((_ :: _) as r'') =>
                    if (g =? ch "-") || (g =? ch "+") then ([g], r'') else ([], r)
                | _ => ([], r)
                end in
              match span_digits r' with
              | ([], _) => ([], r2)
              | (es, r'') => (e :: sign ++ es, r'')
              end
            else ([], r2)
        | [] => ([], r2)
        end in
      Some (neg, ds, frac ++ exp, r3)
  end.

(** [float(s)] on the text of a JSON number: the binary64 value nearest to
    the decimal, ties to even.  The text is a sign, integer digits, an
    optional fraction and an optional exponent; its value is the integer
    made of all its digits, scaled by a power of ten. *)
Definition float_of_literal (s : str) : spec_float :=
  let (neg, s1) :=
    match s with
    | c :: r => if c =? ch "-" then (true, r) else (false, s)
    | [] => (false, s)
    end in
  let (int_digits, s2) := span_digits s1 in
  let (frac_digits, s3) :=
    match s2 with
    | c :: r => if c =? ch "." then span_digits r else ([], s2)
    | [] => ([], s2)
    end in
  let exponent :=
    match s3 with
    | _ :: c :: r =>
        if c =? ch "-" then (- digits_value (fst (span_digits r)))%Z
        else if c =? ch "+" then digits_value (fst (span_digits r))
        else digits_value (fst (span_digits (c :: r)))
    | _ => 0%Z
    end in
  let e10 := (exponent - Z.of_nat (List.length frac_digits))%Z in
  match digits_value (int_digits ++ frac_digits) with
  | Zpos m =>
      match e10 with
      | Zneg k => SFdiv 53 1024 (S754_finite neg m 0) (S754_finite false (10 ^ k) 0)
      | Z0 => binary_normalize 53 1024 (if neg then Zneg m else Zpos m) 0 false
      | Zpos k =>
          binary_normalize 53 1024
            (if neg then Zneg (m * 10 ^ k) else Zpos (m * 10 ^ k)) 0 false
      end
  | _ => S754_zero neg
  end.

(** [s.startswith(prefix)], with the rest of [s] after the prefix. *)
Fixpoint strip_prefix (prefix s : str) : option str :=
  match prefix, s with
  | [], _ => Some s
  | p :: prefix', c :: s' => if char_eqb p c then strip_prefix prefix' s' else None
  | _ :: _, [] => None
  end.

Section Decoder.

Variable rt : Runtime.

(** The conversion of a matched number: [int] for a literal without
    fraction and exponent, [float] otherwise. *)
Definition number_value (neg : bool) (ds rest : str) : Result LibExc pyobj :=
  match rest with
  | [] =>
      if negb (Nat.eqb (int_max_str_digits rt) 0)
         && Nat.ltb (int_max_str_digits rt) (List.length ds)
      then Raise ValueError
      else Return (PyInt (if neg then - digits_value ds else digits_value ds)%Z)
  | _ :: _ =>
      Return (PyFloat (float_of_str rt ((if neg then [ch "-"] else []) ++ ds ++ rest)))
  end.

(** The items of a non-empty array, from its first item on.  [n] bounds
    the number of items by the length of the text to read; with no text
    left an item is missing. *)
Fixpoint array_items (scan : str -> Result LibExc (pyobj * str)) (n : nat)
         (s : str) (acc : list pyobj) : Result LibExc (pyobj * str) :=
  match n with
  | O => json_fail ExpectingValue
  | S n' =>
      match scan s with
      | Raise e => Raise e
      | Return (v, r) =>
          match skip_ws r with
          | c :: r' =>
              if c =? ch "]" then Return (PyList (rev (v :: acc)), r')
              else if c =? ch "," then array_items scan n' (skip_ws r') (v :: acc)
              else json_fail ExpectingComma
          | [] => json_fail ExpectingComma
          end
      end
  end.

(** [_parse_array], entered after the opening bracket. *)
Definition parse_array (scan : str -> Result LibExc (pyobj * str)) (s : str)
  : Result LibExc (pyobj * str) :=
  match skip_ws s with
  | c :: r =>
      if c =? ch "]" then Return (PyList [], r)
      else array_items scan (List.length (skip_ws s)) (skip_ws s) []
  | [] => array_items scan 0 [] []
  end.

(** The members of a non-empty object, from its first key on. *)
Fixpoint object_items (scan : str -> Result LibExc (pyobj * str)) (n : nat)
         (s : str) (acc : dict) : Result LibExc (pyobj * str) :=
  match n with
  | O => json_fail ExpectingPropertyName
  | S n' =>
      match s with
      | q :: r =>
          if q =? 34 then
            match scanstring r [] with
            | Raise e => Raise e
            | Return (key, r1) =>
                match skip_ws r1 with
                | c1 :: r2 =>
                    if c1 =? ch ":" then
                      match scan (skip_ws r2) with
                      | Raise e => Raise e
                      | Return (v, r3) =>
                          match skip_ws r3 with
                          | c2 :: r4 =>
                              if c2 =? ch "}" then
                                Return (PyDict (dict_set acc key v), r4)
                              else if c2 =? ch "," then
                                object_items scan n' (skip_ws r4) (dict_set acc key v)
                              else json_fail ExpectingComma
                          | [] => json_fail ExpectingComma
                          end
                      end
                    else json_fail ExpectingColon
                | [] => json_fail ExpectingColon
                end
            end
          else json_fail ExpectingPropertyName
      | [] => json_fail ExpectingPropertyName
      end
  end.

(** [_parse_object], entered after the opening brace. *)
Definition parse_object (scan : str -> Result LibExc (pyobj * str)) (s : str)
  : Result LibExc (pyobj * str) :=
  match skip_ws s with
  | c :: r =>
      if c =? ch "}" then Return (PyDict [], r)
      else object_items scan (List.length (skip_ws s)) (skip_ws s) []
  | [] => object_items scan 0 [] []
  end.

(** A value that is neither a string, an array nor an object. *)
Definition scan_atom (s : str) : Result LibExc (pyobj * str) :=
  match strip_prefix (py "null") s with
  | Some r => Return (PyNone, r)
  | None =>
  match strip_prefix (py "true") s with
  | Some r => Return (PyBool true, r)
  | None =>
  match strip_prefix (py "false") s with
  | Some r => Return (PyBool false, r)
  | None =>
  match strip_prefix (py "NaN") s with
  | Some r => Return (PyFloat S754_nan, r)
  | None =>
  match strip_prefix (py "Infinity") s with
  | Some r => Return (PyFloat (S754_infinity false), r)
  | None =>
  match strip_prefix (py "-Infinity") s with
  | Some r => Return (PyFloat (S754_infinity true), r)
  | None =>
  match match_number s with
  | Some (neg, ds, rest, r) =>
      match number_value neg ds rest with
      | Return v => Return (v, r)
      | Raise e => Raise e
      end
  | None => json_fail ExpectingValue
  end end end end end end end.

(** [scan_once]: one JSON value at the head of the text.  [depth] is the
    number of arrays and objects that may still be entered. *)
Fixpoint scan_once (depth : nat) (s : str) : Result LibExc (pyobj * str) :=
  match s with
  | [] => json_fail ExpectingValue
  | c :: r =>
      if c =? 34 then
        match scanstring r [] with
        | Return (v, r') => Return (PyStr v, r')
        | Raise e => Raise e
        end
      else if c =? ch "{" then
        match depth with
        | O => Raise RecursionError
        | S d => parse_object (scan_once d) r
        end
      else if c =? ch "[" then
        match depth with
        | O => Raise RecursionError
        | S d => parse_array (scan_once d) r
        end
      else scan_atom s
  end.

(** [json.loads(s)] for a [str]. *)
Definition json_loads (s : str) : Result LibExc pyobj :=
  match s with
  | 65279 :: _ => json_fail UnexpectedBOM
  | _ =>
      match scan_once (recursion_limit rt) (skip_ws s) with
      | Raise e => Raise e
      | Return (obj, r) =>
          match skip_ws r with
          | [] => Return obj
          | _ :: _ => json_fail ExtraData
          end
      end
  end.

End Decoder.

(** ** Schemas (main.py lines 52-82)

    The pydantic models.  A [Literal] of strings is an enumeration with its
    spelling; a model's constructor validates its arguments as pydantic 2
    does in its default mode: a [str] field takes a string and nothing
    else, a [Literal] field one of its values, unknown keys are ignored and
    every failing field is reported. *)

Module Role.
Inductive t := system | user | assistant.
Definition to_str (r : t) : str :=
  match r with
  | system => py "system"
  | user => py "user"
  | assistant => py "assistant"
  end.
End Role.

Module ChatMessage.
Record t := { role : Role.t; content : str }.
(** [m.model_dump()] *)
Definition model_dump (m : t) : pyobj :=
  PyDict [(py "role", PyStr (Role.to_str (role m)));
          (py "content", PyStr (content m))].
End ChatMessage.

(** 0.2 and 0.1 as binary64 values. *)
Definition float_0_2 : spec_float := S754_finite false 7205759403792794 (-55).
Definition float_0_1 : spec_float := S754_finite false 7205759403792794 (-56).

Module ChatReq.
Record t := {
  messages : list ChatMessage.t;
  model : option str;
  temperature : option spec_float;
  options : option dict
}.
(** The same request with another temperature. *)
Definition with_temperature (req : t) (f : option spec_float) : t :=
  {| messages := messages req; model := model req;
     temperature := f; options := options req |}.
(** A request that gives the messages and leaves every other field out. *)
Definition defaults (ms : list ChatMessage.t) : t :=
  {| messages := ms; model := None; temperature := Some float_0_2; options := None |}.
End ChatReq.

Module ChatResp.
Record t := { model : str; reply : str; stats : option dict }.
(** [ChatResp(model=..., reply=..., stats=...)] as [chat] calls it: the
    reply is whatever object the backend sent as content. *)
Definition init (model : str) (reply : pyobj) (stats : dict) : Result LibExc t :=
  match reply with
  | PyStr s => Return {| model := model; reply := s; stats := Some stats |}
  | _ => Raise (ValidationError [(py "reply", string_type)])
  end.
End ChatResp.

Module Lang.
Inductive t := th | en | auto | multi.
Definition to_str (l : t) : str :=
  match l with
  | th => py "th"
  | en => py "en"
  | auto => py "auto"
  | multi => py "multi"
  end.
End Lang.

Module AnalyzeReq.
Record t := { text : str; language : Lang.t; model : option str }.
End AnalyzeReq.

Module Category.
Inductive t := general | complaint | request | other.
Definition to_str (c : t) : str :=
  match c with
  | general => py "general"
  | complaint => py "complaint"
  | request => py "request"
  | other => py "other"
  end.
Definition all : list t := [general; complaint; request; other].
End Category.

Module Urgency.
Inductive t := low | medium | high.
Definition to_str (u : t) : str :=
  match u with
  | low => py "low"
  | medium => py "medium"
  | high => py "high"
  end.
Definition all : list t := [low; medium; high].
End Urgency.

(** The value of a [Literal] field: the member spelled like the string. *)
Definition literal_of {A} (to_str : A -> str) (all : list A) (s : str) : option A :=
  find (fun a => str_eqb (to_str a) s) all.

(** Validation of one field of a model built from keyword arguments. *)
Definition validate_str (v : option pyobj) : field_error + str :=
  match v with
  | None => inl missing
  | Some (PyStr s) => inr s
  | Some _ => inl string_type
  end.

Definition validate_literal {A} (to_str : A -> str) (all : list A)
           (v : option pyobj) : field_error + A :=
  match v with
  | None => inl missing
  | Some (PyStr s) =>
      match literal_of to_str all s with
      | Some a => inr a
      | None => inl literal_error
      end
  | Some _ => inl literal_error
  end.

Definition field_errors {A} (name : string) (r : field_error + A)
  : list (str * field_error) :=
  match r with
  | inl e => [(py name, e)]
  | inr _ => []
  end.

Module AnalyzeResult.
Record t := {
  summary : str;
  category : Category.t;
  urgency : Urgency.t;
  language : str
}.

(** The constructor applied to the unpacked object, [**obj]: unpacking
    an object that is not a mapping is a [TypeError]; the keys of a
    mapping are the keyword arguments. *)
Definition init (obj : pyobj) : Result LibExc t :=
  match obj with
  | PyDict d =>
      let s := validate_str (dict_lookup d (py "summary")) in
      let c := validate_literal Category.to_str Category.all
                 (dict_lookup d (py "category")) in
      let u := validate_literal Urgency.to_str Urgency.all
                 (dict_lookup d (py "urgency")) in
      let l := validate_str (dict_lookup d (py "language")) in
      match s, c, u, l with
      | inr s', inr c', inr u', inr l' =>
          Return {| summary := s'; category := c'; urgency := u'; language := l' |}
      | _, _, _, _ =>
          Raise (ValidationError
                   (field_errors "summary" s ++ field_errors "category" c
                    ++ field_errors "urgency" u ++ field_errors "language" l))
      end
  | _ => Raise TypeError
  end.
End AnalyzeResult.

Module AnalyzeResp.
Record t := { model : str; result : AnalyzeResult.t }.
End AnalyzeResp.

(** ** The backend and the effect of calling it *)

(** One [requests.post(url, json=..., timeout=...)]. *)
Record Request := { url : str; json : pyobj; timeout : Z }.

(** What the service reads of a [requests.Response]: [r.status_code],
    [r.text] and the outcome of [r.json()]. *)
Record Response := {
  status_code : Z;
  text : str;
  json_body : Result LibExc pyobj
}.

(** A call either gets a response or raises a [requests.RequestException]
    (connection refused, timeout, ...), whose [str()] is [info]. *)
Inductive PostOutcome :=
| Responds (r : Response)
| Fails (info : str).

(** The backend answers a request, knowing the requests sent before it. *)
Definition Backend := list Request -> Request -> PostOutcome.

(** A computation of the service: it runs against a backend, from the log
    of the requests sent so far, and ends with a value or an exception and
    the new log. *)
Definition M (A : Type) := Backend -> list Request -> Result Exc A * list Request.

Definition ret {A} (a : A) : M A := fun _ log => (Return a, log).

Definition raise {A} (e : Exc) : M A := fun _ log => (Raise e, log).

Definition bind {A B} (c : M A) (k : A -> M B) : M B :=
  fun be log =>
    match c be log with
    | (Return a, log') => k a be log'
    | (Raise e, log') => (Raise e, log')
    end.

(** A library call whose exception nothing catches. *)
Definition lift {A} (r : Result LibExc A) : M A :=
  match r with
  | Return a => ret a
  | Raise e => raise (Lib e)
  end.

(** [try: c  except requests.RequestException as e: h e] *)
Definition try_except_request {A} (c : M A) (h : LibExc -> M A) : M A :=
  fun be log =>
    match c be log with
    | (Raise (Lib (RequestException info)), log') => h (RequestException info) be log'
    | r => r
    end.

Declare Scope py_scope.
Delimit Scope py_scope with py.
Notation "x <- c ;; k" := (bind c (fun x => k))
  (at level 61, c at next level, right associativity) : py_scope.

Definition requests_post (url : str) (json : pyobj) (timeout : Z) : M Response :=
  fun be log =>
    let rq := {| url := url; json := json; timeout := timeout |} in
    match be log rq with
    | Responds r => (Return r, log ++ [rq])
    | Fails info => (Raise (Lib (RequestException info)), log ++ [rq])
    end.

(** ** The service (main.py) *)

(** [os.getenv(name, default)] *)
Definition getenv (rt : Runtime) (name default : string) : str :=
  match environ rt (py name) with
  | Some v => v
  | None => py default
  end.

(** [o.get(k, default)]: the method of a dict, an [AttributeError] on
    every other object that JSON can hold. *)
Definition py_get (o : pyobj) (k : string) (default : pyobj) : Result LibExc pyobj :=
  match o with
  | PyDict d =>
      Return (match dict_lookup d (py k) with Some v => v | None => default end)
  | _ => Raise AttributeError
  end.

(** [o.strip()] *)
Definition py_strip (o : pyobj) : Result LibExc str :=
  match o with
  | PyStr s => Return (strip s)
  | _ => Raise AttributeError
  end.

(** The content of the reply, main.py line 152: the "content" of
    [data.get("message") or {}], the empty string when there is none. *)
Definition reply_content (data : pyobj) : Result LibExc pyobj :=
  match py_get data "message" PyNone with
  | Raise e => Raise e
  | Return message => py_get (py_or message (PyDict [])) "content" (PyStr [])
  end.

(** The raw reply, main.py line 126: the same content, stripped. *)
Definition reply_text (data : pyobj) : Result LibExc str :=
  match reply_content data with
  | Raise e => Raise e
  | Return content => py_strip content
  end.

(** [s or default] on a [str] *)
Definition or_else (s default : str) : str :=
  match s with
  | [] => default
  | _ :: _ => s
  end.

(** [x in {...}] on strings *)
Definition str_in (x : str) (l : list str) : bool := existsb (str_eqb x) l.

(** main.py lines 25-49: the three system prompts. *)
Definition SYSTEM_THAI : str :=
  py "คุณคือระบบวิเคราะห์ข้อความลูกค้า ตอบกลับเป็น JSON เดียวเท่านั้น "
  ++ py "รูปแบบ: {" ++ quoted "summary" ++ py ":" ++ quoted "..." ++ py ","
  ++ quoted "category" ++ py ":" ++ quoted "general|complaint|request|other" ++ py ","
  ++ quoted "urgency" ++ py ":" ++ quoted "low|medium|high" ++ py ","
  ++ quoted "language" ++ py ":" ++ quoted "th|en" ++ py "} "
  ++ py "กติกา: ให้เขียน summary เป็น 'ภาษาไทย' และกำหนด language เป็น 'th' เท่านั้น "
  ++ py "ห้ามใส่ข้อความอื่นนอกเหนือจาก JSON เดียว".

Definition SYSTEM_EN : str :=
  py "You are a text analysis system. Reply with ONE JSON object only: "
  ++ py "{" ++ quoted "summary" ++ py ":" ++ quoted "..." ++ py ","
  ++ quoted "category" ++ py ":" ++ quoted "general|complaint|request|other" ++ py ","
  ++ quoted "urgency" ++ py ":" ++ quoted "low|medium|high" ++ py ","
  ++ quoted "language" ++ py ":" ++ quoted "th|en" ++ py "} "
  ++ py "Rules: write the summary in 'English' and set language to 'en' only. "
  ++ py "No extra text outside the single JSON.".

Definition SYSTEM_AUTO : str :=
  py "You are a multilingual text analysis system. Detect the language automatically. "
  ++ py "Reply with ONE JSON object only: "
  ++ py "{" ++ quoted "summary" ++ py ":" ++ quoted "..." ++ py ","
  ++ quoted "category" ++ py ":" ++ quoted "general|complaint|request|other" ++ py ","
  ++ quoted "urgency" ++ py ":" ++ quoted "low|medium|high" ++ py ","
  ++ quoted "language" ++ py ":" ++ quoted "xx" ++ py "} "
  ++ py "Rules: (1) Set language as ISO 639-1 code (e.g. th, en, ja, zh, fr, de, es); "
  ++ py "(2) Write the summary in the same language as the input; "
  ++ py "(3) Output only the single JSON, no extra text.".

(** [_pick_system_msg], main.py lines 99-106. *)
Definition _pick_system_msg (lang : str) : str :=
  if str_eqb lang (py "th") then SYSTEM_THAI
  else if str_eqb lang (py "en") then SYSTEM_EN
  else if str_eqb lang (py "multi") then SYSTEM_AUTO
  else SYSTEM_AUTO.

Local Open Scope py_scope.

Section Service.

Variable rt : Runtime.

(** main.py lines 12-13 *)
Definition OLLAMA_BASE_URL : str :=
  getenv rt "OLLAMA_BASE_URL" "http://127.0.0.1:11434".
Definition DEFAULT_MODEL : str := getenv rt "MODEL_ID" "qwen2:7b".

(** [_post_ollama], main.py lines 85-93. *)
Definition _post_ollama (path : str) (payload : pyobj) : M pyobj :=
  let url := OLLAMA_BASE_URL ++ path in
  r <- try_except_request
         (requests_post url payload 300)
         (fun e => raise (HTTPException 502
                            [FStr (py "Ollama unreachable: "); FExc e])) ;;
  if (400 <=? status_code r)%Z then
    raise (HTTPException 502 [FStr (py "Ollama error: "); FStr (text r)])
  else lift (json_body r).

(** The payload that [_analyze_once] builds, main.py lines 116-124. *)
Definition analyze_payload (mdl system_msg text : str) : pyobj :=
  PyDict
    [(py "model", PyStr mdl);
     (py "messages",
      PyList [PyDict [(py "role", PyStr (py "system"));
                      (py "content", PyStr system_msg)];
              PyDict [(py "role", PyStr (py "user"));
                      (py "content", PyStr text)]]);
     (py "stream", PyBool false);
     (py "options", PyDict [(py "temperature", PyFloat float_0_1)])].

(** The end of [_analyze_once], main.py lines 127-135: from the raw reply
    to the validated result, each of the two [try] blocks turning every
    exception of its body into an [HTTPException] with status 500. *)
Definition coerce (raw : str) : Result Exc AnalyzeResult.t :=
  let json_text := _extract_json raw in
  match json_loads rt json_text with
  | Raise e =>
      Raise (HTTPException 500
               [FStr (py "Model returned invalid JSON: "); FExc e;
                FStr (py " | raw="); FStr (slice_to 200 raw)])
  | Return obj =>
      match AnalyzeResult.init obj with
      | Raise e =>
          Raise (HTTPException 500
                   [FStr (py "JSON shape mismatch: "); FExc e;
                    FStr (py " | raw="); FStr (slice_to 200 raw)])
      | Return res => Return res
      end
  end.

(** The language after line 110, and the test of line 111. *)
Definition normalize_language (language : str) : str :=
  str_lower rt (or_else language (py "auto")).

Definition language_accepted (language : str) : bool :=
  str_in language [py "th"; py "en"; py "auto"].

(** [_analyze_once], main.py lines 108-135. *)
Definition _analyze_once (text language : str) (model : option str)
  : M AnalyzeResult.t :=
  let language := normalize_language language in
  if negb (language_accepted language) then
    raise (HTTPException 422
             [FStr (py "language must be one of: th | en | auto")])
  else
    let mdl := str_or model DEFAULT_MODEL in
    let system_msg := _pick_system_msg language in
    let payload := analyze_payload mdl system_msg text in
    data <- _post_ollama (py "/api/chat") payload ;;
    raw <- lift (reply_text data) ;;
    fun _ log => (coerce raw, log).

(** The request that [_analyze_once] sends once the language is accepted. *)
Definition analyze_request (text language : str) (model : option str) : Request :=
  {| url := OLLAMA_BASE_URL ++ py "/api/chat";
     json := analyze_payload (str_or model DEFAULT_MODEL)
               (_pick_system_msg (normalize_language language)) text;
     timeout := 300 |}.

(** [GET /health], main.py lines 138-140. *)
Definition health : M pyobj :=
  ret (PyDict [(py "ok", PyBool true);
               (py "ollama", PyStr OLLAMA_BASE_URL);
               (py "default_model", PyStr DEFAULT_MODEL)]).

(** [req.options or {"temperature": req.temperature}] *)
Definition chat_options (req : ChatReq.t) : dict :=
  match ChatReq.options req with
  | Some (kv :: d) => kv :: d
  | _ =>
      [(py "temperature",
        match ChatReq.temperature req with
        | Some f => PyFloat f
        | None => PyNone
        end)]
  end.

(** The payload that [chat] builds, main.py lines 145-150. *)
Definition chat_payload (req : ChatReq.t) : pyobj :=
  PyDict
    [(py "model", PyStr (str_or (ChatReq.model req) DEFAULT_MODEL));
     (py "messages", PyList (map ChatMessage.model_dump (ChatReq.messages req)));
     (py "stream", PyBool false);
     (py "options", PyDict (chat_options req))].


(** The request that [chat] sends. *)
Definition chat_request (req : ChatReq.t) : Request :=
  {| url := OLLAMA_BASE_URL ++ py "/api/chat";
     json := chat_payload req;
     timeout := 300 |}.

(** [POST /v1/chat], main.py lines 142-158. *)
Definition chat (req : ChatReq.t) : M ChatResp.t :=
  let model := str_or (ChatReq.model req) DEFAULT_MODEL in
  let payload := chat_payload req in
  data <- _post_ollama (py "/api/chat") payload ;;
  message <- lift (reply_content data) ;;
  total_duration <- lift (py_get data "total_duration" PyNone) ;;
  eval_count <- lift (py_get data "eval_count" PyNone) ;;
  prompt_eval_count <- lift (py_get data "prompt_eval_count" PyNone) ;;
  let stats :=
    [(py "total_duration_ns", total_duration);
     (py "eval_count", eval_count);
     (py "prompt_eval_count", prompt_eval_count)] in
  lift (ChatResp.init model message stats).

(** [POST /v1/analyze], main.py lines 160-163. *)
Definition analyze (req : AnalyzeReq.t) : M AnalyzeResp.t :=
  result <- _analyze_once (AnalyzeReq.text req)
              (Lang.to_str (AnalyzeReq.language req)) (AnalyzeReq.model req) ;;
  ret {| AnalyzeResp.model := str_or (AnalyzeReq.model req) DEFAULT_MODEL;
         AnalyzeResp.result := result |}.

(** [GET /v1/analyze], main.py lines 165-172. *)
Definition analyze_get (text language : str) (model : option str)
  : M AnalyzeResp.t :=
  result <- _analyze_once text language model ;;
  ret {| AnalyzeResp.model := str_or model DEFAULT_MODEL;
         AnalyzeResp.result := result |}.

End Service.

(** The backend answers the request [rq], sent after [log], with a status
    below 400 and a JSON body whose message content, stripped, is [raw]. *)
Definition replies_with (be : Backend) (log : list Request) (rq : Request)
           (raw : str) : Prop :=
  exists r data,
    be log rq = Responds r /\ (status_code r < 400)%Z
    /\ json_body r = Return data /\ reply_text data = Return raw.

(** A runtime for examples: an empty environment, the ASCII case mapping
    for [str.lower], the interpreter's default limit of 4300 digits, and
    room for 900 nested arrays and objects, which is less than the
    interpreter's default of 1000 frames, some of them in use when the
    decoder is called. *)
Definition example_runtime : Runtime :=
  {| environ := fun _ => None;
     str_lower := ascii_lower;
     recursion_limit := 900;
     int_max_str_digits := 4300;
     float_of_str := float_of_literal |}.

(** ** Validation of requests (main.py lines 54-72 and 160-172)

    A message as the schema [ChatMessage] accepts it, and what FastAPI does
    with the two analyze routes before it calls their handlers: it
    validates the body of a POST against [AnalyzeReq], and the query of a
    GET against the parameters of [analyze_get], and answers 422 without
    calling the handler when that fails. *)

Module Validate.

Definition roles : list Role.t := [Role.system; Role.user; Role.assistant].
Definition langs : list Lang.t := [Lang.th; Lang.en; Lang.auto; Lang.multi].

(** An [Optional[str]] field whose default is [None]. *)
Definition optional_str (v : option pyobj) : field_error + option str :=
  match v with
  | None => inr None
  | Some PyNone => inr None
  | Some (PyStr s) => inr (Some s)
  | Some _ => inl string_type
  end.

(** A [Literal] field with a default. *)
Definition literal_or {A} (to_str : A -> str) (all : list A) (default : A)
           (v : option pyobj) : field_error + A :=
  match v with
  | None => inr default
  | Some _ => validate_literal to_str all v
  end.

(** The constructor of [ChatMessage] applied to the unpacked object. *)
Definition chat_message (obj : pyobj) : Result LibExc ChatMessage.t :=
  match obj with
  | PyDict d =>
      let r := validate_literal Role.to_str roles (dict_lookup d (py "role")) in
      let c := validate_str (dict_lookup d (py "content")) in
      match r, c with
      | inr r', inr c' => Return {| ChatMessage.role := r'; ChatMessage.content := c' |}
      | _, _ => Raise (ValidationError (field_errors "role" r ++ field_errors "content" c))
      end
  | _ => Raise TypeError
  end.

(** Why a request is answered 422 before its handler runs. *)
Inductive Rejected :=
| body_not_object
| body_fields (errors : list (str * field_error))
| query_missing (name : str)
| query_too_short (name : str).

(** The body of [POST /v1/analyze], once decoded, against [AnalyzeReq]. *)
Definition analyze_req (body : pyobj) : Rejected + AnalyzeReq.t :=
  match body with
  | PyDict d =>
      let t := validate_str (dict_lookup d (py "text")) in
      let l := literal_or Lang.to_str langs Lang.auto (dict_lookup d (py "language")) in
      let m := optional_str (dict_lookup d (py "model")) in
      match t, l, m with
      | inr t', inr l', inr m' =>
          inr {| AnalyzeReq.text := t'; AnalyzeReq.language := l'; AnalyzeReq.model := m' |}
      | _, _, _ =>
          inl (body_fields (field_errors "text" t ++ field_errors "language" l
                            ++ field_errors "model" m))
      end
  | _ => inl body_not_object
  end.

End Validate.

(** A route: the request is rejected, or the handler runs. *)
Definition Route (A : Type) :=
  Backend -> list Request -> (Validate.Rejected + Result Exc A) * list Request.

Definition rejected {A} (why : Validate.Rejected) : Route A :=
  fun _ log => (inl why, log).

Definition handled {A} (c : M A) : Route A :=
  fun be log => let (r, log') := c be log in (inr r, log').

(** [POST /v1/analyze] with the decoded body, main.py lines 160-163. *)
Definition post_v1_analyze (rt : Runtime) (body : pyobj) : Route AnalyzeResp.t :=
  match Validate.analyze_req body with
  | inl why => rejected why
  | inr req => handled (analyze rt req)
  end.

(** [GET /v1/analyze] with the query parameters that were given, main.py
    lines 165-172: [text] is required and has one character at least,
    [language] is "auto" when left out, [model] is [None] when left out. *)
Definition get_v1_analyze (rt : Runtime) (text language model : option str)
  : Route AnalyzeResp.t :=
  match text with
  | None => rejected (Validate.query_missing (py "text"))
  | Some [] => rejected (Validate.query_too_short (py "text"))
  | Some (c :: t) =>
      handled (analyze_get rt (c :: t)
                 (match language with Some l => l | None => py "auto" end) model)
  end.

(** A scanner that succeeds wherever another one does, with the same
    result. *)
Definition extends (scan scan' : str -> Result LibExc (pyobj * str)) : Prop :=
  forall s v, scan s = Return v -> scan' s = Return v.

(** A scanner that reads at least one character of every value. *)
Definition consuming (scan : str -> Result LibExc (pyobj * str)) : Prop :=
  forall s v r, scan s = Return (v, r) -> (List.length r < List.length s)%nat.

(** ** Example data *)

(** Commentary around an object that holds a newline and braces of its
    own. *)
Definition example_mid : str := py "a}
{b".

(** The raw reply of the round-trip example. *)
Definition good_reply : str :=
  py "Sure! {" ++ quoted "summary" ++ py ":" ++ quoted "ok" ++ py ","
  ++ quoted "category" ++ py ":" ++ quoted "general" ++ py ","
  ++ quoted "urgency" ++ py ":" ++ quoted "low" ++ py ","
  ++ quoted "language" ++ py ":" ++ quoted "en" ++ py "} thanks".

(** The object embedded in it, and the result it describes. *)
Definition good_object : str :=
  py "{" ++ quoted "summary" ++ py ":" ++ quoted "ok" ++ py ","
  ++ quoted "category" ++ py ":" ++ quoted "general" ++ py ","
  ++ quoted "urgency" ++ py ":" ++ quoted "low" ++ py ","
  ++ quoted "language" ++ py ":" ++ quoted "en" ++ py "}".

Definition good_dict : dict :=
  [(py "summary", PyStr (py "ok"));
   (py "category", PyStr (py "general"));
   (py "urgency", PyStr (py "low"));
   (py "language", PyStr (py "en"))].

Definition good_result : AnalyzeResult.t :=
  {| AnalyzeResult.summary := py "ok";
     AnalyzeResult.category := Category.general;
     AnalyzeResult.urgency := Urgency.low;
     AnalyzeResult.language := py "en" |}.

(** A reply that is JSON with a category outside the enumeration. *)
Definition urgent_reply : str :=
  py "{" ++ quoted "summary" ++ py ":" ++ quoted "ok" ++ py ","
  ++ quoted "category" ++ py ":" ++ quoted "urgent" ++ py ","
  ++ quoted "urgency" ++ py ":" ++ quoted "low" ++ py ","
  ++ quoted "language" ++ py ":" ++ quoted "en" ++ py "}".

Definition urgent_dict : dict :=
  [(py "summary", PyStr (py "ok"));
   (py "category", PyStr (py "urgent"));
   (py "urgency", PyStr (py "low"));
   (py "language", PyStr (py "en"))].

(** A backend that is down, and one that answers every request with the
    given status, body text and decoded body. *)
Definition backend_down : Backend := fun _ _ => Fails (py "connection refused").

Definition backend_answers (status : Z) (body : str) (data : Result LibExc pyobj)
  : Backend :=
  fun _ _ => Responds {| status_code := status; text := body; json_body := data |}.

(** The body of a backend reply whose message content is [content]. *)
Definition reply_data (content : str) : pyobj :=
  PyDict [(py "message", PyDict [(py "role", PyStr (py "assistant"));
                                 (py "content", PyStr content)])].

(** Backend data for a chat: a message alone, and a message with two of
    the three statistics. *)
Definition chat_data_bare : dict :=
  [(py "message", PyDict [(py "role", PyStr (py "assistant"));
                          (py "content", PyStr (py "hi"))])].

Definition chat_data_with_stats : dict :=
  [(py "message", PyDict [(py "role", PyStr (py "assistant"));
                          (py "content", PyStr (py "hi"))]);
   (py "total_duration", PyInt 5);
   (py "eval_count", PyInt 3)].

(** * Theorems *)

(** ** Strings *)

Lemma str_eqb_eq a b : str_eqb a b = true <-> a = b.
Proof.
  revert b. induction a as [|x a IH]; intros [|y b]; cbn [str_eqb];
    try (split; [discriminate|discriminate]); try tauto.
  rewrite andb_true_iff, IH. unfold char_eqb. rewrite N.eqb_eq.
  split; [intros [-> ->]; reflexivity | intros [= -> ->]; tauto].
Qed.

Lemma str_eqb_refl a : str_eqb a a = true.
Proof. now apply str_eqb_eq. Qed.

Lemma str_eqb_neq a b : a <> b -> str_eqb a b = false.
Proof.
  intros H. destruct (str_eqb a b) eqn:E; [|reflexivity].
  now apply str_eqb_eq in E.
Qed.

(** ** The JSON extraction step *)

Section ExtractJson.

(** The equations of the matcher. *)
Lemma match_star_nil p : match_here (DotStar :: p) [] = match_here p [].
Proof. reflexivity. Qed.

Lemma match_star_cons p x s :
  match_here (DotStar :: p) (x :: s)
  = match match_here (DotStar :: p) s with
    | Some m => Some (x :: m)
    | None => match_here p (x :: s)
    end.
Proof. reflexivity. Qed.

Lemma match_chr_cons c p x s :
  match_here (Chr c :: p) (x :: s)
  = if char_eqb x c then option_map (cons x) (match_here p s) else None.
Proof. reflexivity. Qed.

Lemma match_rbrace x s :
  match_here [Chr RBRACE] (x :: s) = if char_eqb x RBRACE then Some [x] else None.
Proof. reflexivity. Qed.

Lemma star_none s :
  ~ In RBRACE s -> match_here [DotStar; Chr RBRACE] s = None.
Proof.
  induction s as [|x s IH]; intros Hn; [reflexivity|].
  rewrite match_star_cons, IH, match_rbrace by (intros H; apply Hn; now right).
  unfold char_eqb.
  destruct (N.eqb_spec x RBRACE) as [->|]; [|reflexivity].
  exfalso; apply Hn; now left.
Qed.

Lemma star_last mid post :
  ~ In RBRACE post ->
  match_here [DotStar; Chr RBRACE] (mid ++ RBRACE :: post) = Some (mid ++ [RBRACE]).
Proof.
  intros Hn. induction mid as [|x mid IH]; cbn [app].
  - rewrite match_star_cons, (star_none post Hn), match_rbrace.
    unfold char_eqb. now rewrite N.eqb_refl.
  - now rewrite match_star_cons, IH.
Qed.

Lemma star_some s m :
  match_here [DotStar; Chr RBRACE] s = Some m ->
  exists mid post, s = mid ++ RBRACE :: post /\ m = mid ++ [RBRACE].
Proof.
  revert m. induction s as [|x s IH]; intros m H.
  - discriminate.
  - rewrite match_star_cons in H.
    destruct (match_here [DotStar; Chr RBRACE] s) as [m'|] eqn:E.
    + injection H as <-.
      destruct (IH m' eq_refl) as (mid & post & -> & ->).
      now exists (x :: mid), post.
    + rewrite match_rbrace in H. unfold char_eqb in H.
      destruct (N.eqb_spec x RBRACE) as [->|]; [|discriminate].
      injection H as <-. now exists [], s.
Qed.

Lemma here_some s m :
  match_here JSON_RE s = Some m ->
  exists mid post, s = LBRACE :: mid ++ RBRACE :: post /\ m = LBRACE :: mid ++ [RBRACE].
Proof.
  destruct s as [|x s]; [discriminate|].
  unfold JSON_RE. rewrite match_chr_cons. unfold char_eqb.
  destruct (N.eqb_spec x LBRACE) as [->|]; [|discriminate].
  intros H.
  destruct (match_here [DotStar; Chr RBRACE] s) as [m'|] eqn:E; [|discriminate].
  injection H as <-.
  destruct (star_some s m' E) as (mid & post & -> & ->).
  now exists mid, post.
Qed.

Lemma here_first mid post :
  ~ In RBRACE post ->
  match_here JSON_RE (LBRACE :: mid ++ RBRACE :: post) = Some (LBRACE :: mid ++ [RBRACE]).
Proof.
  intros Hn. unfold JSON_RE.
  rewrite match_chr_cons, (star_last mid post Hn).
  unfold char_eqb. now rewrite N.eqb_refl.
Qed.

Lemma here_other x s : x <> LBRACE -> match_here JSON_RE (x :: s) = None.
Proof.
  intros Hx. unfold JSON_RE. rewrite match_chr_cons. unfold char_eqb.
  now destruct (N.eqb_spec x LBRACE).
Qed.

Lemma search_some s m :
  re_search JSON_RE s = Some m ->
  exists pre mid post, s = pre ++ LBRACE :: mid ++ RBRACE :: post.
Proof.
  revert m. induction s as [|x s IH]; intros m H.
  - discriminate.
  - cbn [re_search] in H.
    destruct (match_here JSON_RE (x :: s)) as [m'|] eqn:E.
    + destruct (here_some _ _ E) as (mid & post & Hs & _).
      exists [], mid, post. exact Hs.
    + destruct (IH m H) as (pre & mid & post & ->).
      now exists (x :: pre), mid, post.
Qed.

Lemma search_first pre mid post :
  ~ In LBRACE pre -> ~ In RBRACE post ->
  re_search JSON_RE (pre ++ LBRACE :: mid ++ RBRACE :: post)
  = Some (LBRACE :: mid ++ [RBRACE]).
Proof.
  intros Hpre Hpost. induction pre as [|x pre IH]; cbn [app re_search].
  - now rewrite here_first.
  - rewrite here_other.
    + apply IH. intros H; apply Hpre; now right.
    + intros ->. apply Hpre. now left.
Qed.

Lemma star_any mid post :
  match_here [DotStar; Chr RBRACE] (mid ++ RBRACE :: post) <> None.
Proof.
  induction mid as [|x mid IH]; cbn [app]; rewrite match_star_cons.
  - destruct (match_here [DotStar; Chr RBRACE] post); [discriminate|].
    rewrite match_rbrace. unfold char_eqb. now rewrite N.eqb_refl.
  - destruct (match_here [DotStar; Chr RBRACE] (mid ++ RBRACE :: post));
      [discriminate|contradiction].
Qed.

(** A text that holds an opening brace with a closing brace after it has
    a match. *)
Lemma search_any pre mid post :
  re_search JSON_RE (pre ++ LBRACE :: mid ++ RBRACE :: post) <> None.
Proof.
  induction pre as [|x pre IH]; cbn [app re_search].
  - unfold JSON_RE. rewrite match_chr_cons. unfold char_eqb.
    rewrite N.eqb_refl. pose proof (star_any mid post) as H.
    destruct (match_here [DotStar; Chr RBRACE] (mid ++ RBRACE :: post));
      [discriminate|contradiction].
  - destruct (match_here JSON_RE (x :: pre ++ LBRACE :: mid ++ RBRACE :: post));
      [discriminate|exact IH].
Qed.

(** C1. [_extract_json] returns the text from the first opening brace to
    the last closing brace, whatever lies between them (newlines included);
    a text with no opening brace followed by a closing brace is returned
    whole. *)
Theorem extract_json_first_to_last :
  (forall pre mid post,
      ~ In LBRACE pre -> ~ In RBRACE post ->
      _extract_json (pre ++ LBRACE :: mid ++ RBRACE :: post)
      = LBRACE :: mid ++ [RBRACE])
  /\ (forall text,
         (forall pre mid post, text <> pre ++ LBRACE :: mid ++ RBRACE :: post) ->
         _extract_json text = text).
Proof.
  split.
  - intros pre mid post Hpre Hpost. unfold _extract_json.
    now rewrite search_first.
  - intros text Hno. unfold _extract_json.
    destruct (re_search JSON_RE text) as [m|] eqn:E; [|reflexivity].
    destruct (search_some _ _ E) as (pre & mid & post & Hs).
    now destruct (Hno pre mid post).
Qed.

End ExtractJson.

Lemma extract_json_first_to_last_witness :
  _extract_json (py "say " ++ LBRACE :: example_mid ++ RBRACE :: py " bye")
  = LBRACE :: example_mid ++ [RBRACE]
  /\ _extract_json (py "} no object {") = py "} no object {".
Proof.
  destruct extract_json_first_to_last as [Hspan Hnone]. split.
  - apply Hspan; vm_compute; intuition discriminate.
  - apply Hnone. intros pre mid post H.
    assert (Hs : re_search JSON_RE (py "} no object {") = None) by (vm_compute; reflexivity).
    rewrite H in Hs. exact (search_any pre mid post Hs).
Defined.

(** ** The prompt-template selector *)

Lemma templates_distinct :
  SYSTEM_THAI <> SYSTEM_EN /\ SYSTEM_THAI <> SYSTEM_AUTO /\ SYSTEM_EN <> SYSTEM_AUTO.
Proof.
  repeat split; intros H; apply str_eqb_eq in H; vm_compute in H; discriminate.
Qed.

(** C3. [_pick_system_msg] is a total function of the language string: it
    gives the Thai template for "th", the English one for "en", and the
    auto-detect multilingual template for every other string, among them
    "auto", "multi" and the empty string. *)
Theorem pick_system_msg_total :
  _pick_system_msg (py "th") = SYSTEM_THAI
  /\ _pick_system_msg (py "en") = SYSTEM_EN
  /\ (forall lang, lang <> py "th" -> lang <> py "en" ->
                   _pick_system_msg lang = SYSTEM_AUTO)
  /\ _pick_system_msg (py "auto") = SYSTEM_AUTO
  /\ _pick_system_msg (py "multi") = SYSTEM_AUTO
  /\ _pick_system_msg [] = SYSTEM_AUTO.
Proof.
  assert (Hother : forall lang, lang <> py "th" -> lang <> py "en" ->
                                _pick_system_msg lang = SYSTEM_AUTO).
  { intros lang Hth Hen. unfold _pick_system_msg.
    rewrite (str_eqb_neq _ _ Hth), (str_eqb_neq _ _ Hen).
    now destruct (str_eqb lang (py "multi")). }
  split; [unfold _pick_system_msg; now rewrite str_eqb_refl|].
  split.
  { unfold _pick_system_msg.
    rewrite str_eqb_neq by (vm_compute; discriminate).
    now rewrite str_eqb_refl. }
  split; [exact Hother|].
  repeat apply conj; apply Hother; vm_compute; discriminate.
Qed.

Lemma pick_system_msg_total_witness :
  _pick_system_msg (py "fr") = SYSTEM_AUTO.
Proof.
  destruct pick_system_msg_total as (_ & _ & Hother & _).
  apply Hother; vm_compute; discriminate.
Defined.

(** ** Calls to the backend *)

Section BackendCalls.

Variable rt : Runtime.
Variable be : Backend.

Lemma lift_run {A} (r : Result LibExc A) log :
  lift r be log
  = (match r with Return a => Return a | Raise e => Raise (Lib e) end, log).
Proof. now destruct r. Qed.

(** What [_post_ollama] does, by the backend's answer: it sends one
    request and ends as the answer decides. *)
Lemma post_ollama_run path payload log :
  _post_ollama rt path payload be log
  = let rq := {| url := OLLAMA_BASE_URL rt ++ path; json := payload; timeout := 300 |} in
    (match be log rq with
     | Fails info =>
         Raise (HTTPException 502
                  [FStr (py "Ollama unreachable: "); FExc (RequestException info)])
     | Responds r =>
         if (400 <=? status_code r)%Z
         then Raise (HTTPException 502 [FStr (py "Ollama error: "); FStr (text r)])
         else match json_body r with
              | Return data => Return data
              | Raise e => Raise (Lib e)
              end
     end, log ++ [rq]).
Proof.
  unfold _post_ollama, bind, try_except_request, requests_post. cbv zeta.
  destruct (be log _) as [r|info]; [|reflexivity].
  destruct (400 <=? status_code r)%Z; [reflexivity|].
  now destruct (json_body r).
Qed.

Lemma post_ollama_sends_once path payload log :
  snd (_post_ollama rt path payload be log)
  = log ++ [{| url := OLLAMA_BASE_URL rt ++ path; json := payload; timeout := 300 |}].
Proof. now rewrite post_ollama_run. Qed.

Lemma post_ollama_ok path payload log r data :
  be log {| url := OLLAMA_BASE_URL rt ++ path; json := payload; timeout := 300 |}
  = Responds r ->
  (status_code r < 400)%Z -> json_body r = Return data ->
  _post_ollama rt path payload be log
  = (Return data,
     log ++ [{| url := OLLAMA_BASE_URL rt ++ path; json := payload; timeout := 300 |}]).
Proof.
  intros Hbe Hst Hj. rewrite post_ollama_run. cbv zeta. rewrite Hbe, Hj.
  apply Z.leb_gt in Hst. now rewrite Hst.
Qed.

(** [chat] and [_analyze_once] pass the failure of [_post_ollama] on. *)
Lemma chat_propagates req log e log' :
  _post_ollama rt (py "/api/chat") (chat_payload rt req) be log = (Raise e, log') ->
  chat rt req be log = (Raise e, log').
Proof. intros H. unfold chat, bind. now rewrite H. Qed.

Lemma analyze_once_propagates text language model log e log' :
  language_accepted (normalize_language rt language) = true ->
  _post_ollama rt (py "/api/chat")
    (analyze_payload (str_or model (DEFAULT_MODEL rt))
       (_pick_system_msg (normalize_language rt language)) text) be log
  = (Raise e, log') ->
  _analyze_once rt text language model be log = (Raise e, log').
Proof.
  intros Hacc H. unfold _analyze_once. rewrite Hacc. cbn [negb].
  unfold bind. now rewrite H.
Qed.

(** C7. A call to the backend that fails on the network ends in an
    [HTTPException] with status 502 and the detail "Ollama unreachable: "
    followed by the failure; a response with a status of 400 or more ends
    in an [HTTPException] with status 502 and the detail "Ollama error: "
    followed by the body of the response.  In both cases exactly one
    request has been sent, and [chat] and [_analyze_once] end with the same
    exception and the same log. *)
Theorem backend_failure_is_502_without_retry path payload log :
  let rq := {| url := OLLAMA_BASE_URL rt ++ path; json := payload; timeout := 300 |} in
  (forall info,
      be log rq = Fails info ->
      _post_ollama rt path payload be log
      = (Raise (HTTPException 502
                  [FStr (py "Ollama unreachable: "); FExc (RequestException info)]),
         log ++ [rq]))
  /\ (forall r,
         be log rq = Responds r -> (400 <= status_code r)%Z ->
         _post_ollama rt path payload be log
         = (Raise (HTTPException 502 [FStr (py "Ollama error: "); FStr (text r)]),
            log ++ [rq]))
  /\ (forall req e log',
         _post_ollama rt (py "/api/chat") (chat_payload rt req) be log = (Raise e, log') ->
         chat rt req be log = (Raise e, log'))
  /\ (forall text language model e log',
         language_accepted (normalize_language rt language) = true ->
         _post_ollama rt (py "/api/chat")
           (analyze_payload (str_or model (DEFAULT_MODEL rt))
              (_pick_system_msg (normalize_language rt language)) text) be log
         = (Raise e, log') ->
         _analyze_once rt text language model be log = (Raise e, log')).
Proof.
  cbv zeta. repeat apply conj.
  - intros info H. rewrite post_ollama_run. cbv zeta. now rewrite H.
  - intros r H Hst. rewrite post_ollama_run. cbv zeta. rewrite H.
    apply Z.leb_le in Hst. now rewrite Hst.
  - intros req e log'. apply chat_propagates.
  - intros text language model e log'. apply analyze_once_propagates.
Qed.

(** C9, as the code has it.  [health] returns the mapping with [ok] true,
    the configured base URL under the key "ollama" and the default model
    under "default_model", whatever the backend would answer, and leaves
    the log of requests as it was: it sends none. *)
Theorem health_reports_configuration log :
  health rt be log
  = (Return (PyDict [(py "ok", PyBool true);
                     (py "ollama", PyStr (OLLAMA_BASE_URL rt));
                     (py "default_model", PyStr (DEFAULT_MODEL rt))]),
     log).
Proof. reflexivity. Qed.

End BackendCalls.

Lemma backend_failure_is_502_without_retry_witness :
  _post_ollama example_runtime (py "/api/chat") PyNone backend_down []
  = (Raise (HTTPException 502
              [FStr (py "Ollama unreachable: ");
               FExc (RequestException (py "connection refused"))]),
     [{| url := py "http://127.0.0.1:11434/api/chat"; json := PyNone; timeout := 300 |}])
  /\ _post_ollama example_runtime (py "/api/chat") PyNone
       (backend_answers 404 (py "model not found") (Raise (JSONDecodeError ExpectingValue))) []
     = (Raise (HTTPException 502
                 [FStr (py "Ollama error: "); FStr (py "model not found")]),
        [{| url := py "http://127.0.0.1:11434/api/chat"; json := PyNone; timeout := 300 |}]).
Proof.
  split.
  - destruct (backend_failure_is_502_without_retry example_runtime backend_down
                (py "/api/chat") PyNone []) as (Hdown & _).
    exact (Hdown _ eq_refl).
  - destruct (backend_failure_is_502_without_retry example_runtime
                (backend_answers 404 (py "model not found")
                   (Raise (JSONDecodeError ExpectingValue)))
                (py "/api/chat") PyNone []) as (_ & Herr & _).
    apply (Herr _ eq_refl). simpl. lia.
Defined.

(** C9 with the key "backend_url" of the specification does not hold: the
    response has no such key; the base URL is under the key "ollama". *)
Lemma health_has_no_backend_url :
  exists d,
    fst (health example_runtime backend_down []) = Return (PyDict d)
    /\ dict_lookup d (py "backend_url") = None
    /\ dict_lookup d (py "ollama") = Some (PyStr (py "http://127.0.0.1:11434")).
Proof. eexists. split; [reflexivity|]. split; reflexivity. Qed.

(** ** The language gate *)


Lemma str_in_true x l : In x l -> str_in x l = true.
Proof.
  unfold str_in. intros H. apply existsb_exists. exists x.
  split; [exact H|apply str_eqb_refl].
Qed.

Section LanguageGate.

Variable rt : Runtime.
Variable be : Backend.

(** [str.lower] on ASCII text. *)
Hypothesis lower_ascii : forall s, is_ascii s -> str_lower rt s = ascii_lower s.








End LanguageGate.



(** ** The chat route *)

Section Chat.

Variable rt : Runtime.
Variable be : Backend.

(** [chat] sends its one request whatever happens next. *)
Lemma chat_sends_once req log :
  snd (chat rt req be log) = log ++ [chat_request rt req].
Proof.
  unfold chat, bind. rewrite post_ollama_run. cbv zeta.
  fold (chat_request rt req).
  destruct (be log (chat_request rt req)) as [r|info]; [|reflexivity].
  destruct (400 <=? status_code r)%Z; [reflexivity|].
  destruct (json_body r) as [data|e]; [|reflexivity].
  rewrite lift_run. destruct (reply_content data) as [message|e]; [|reflexivity].
  repeat (rewrite lift_run;
          match goal with
          | |- context [py_get ?o ?k ?v] => destruct (py_get o k v)
          end; [|reflexivity]).
  rewrite lift_run. now destruct (ChatResp.init _ _ _).
Qed.

(** C10. The options of the payload that [chat] sends: with no options in
    the request, or an empty mapping, they are the mapping of
    "temperature" to the temperature of the request (0.2 when the request
    leaves it out, None when it is null); a mapping that is not empty is
    sent as it is, and the payload is then the same for every temperature.
    The payload is that of the one request [chat] sends. *)
Theorem chat_options_default_or_forwarded req log :
  snd (chat rt req be log) = log ++ [chat_request rt req]
  /\ json (chat_request rt req) = chat_payload rt req
  /\ (ChatReq.options req = None \/ ChatReq.options req = Some [] ->
      py_get (chat_payload rt req) "options" PyNone
      = Return (PyDict [(py "temperature",
                         match ChatReq.temperature req with
                         | Some f => PyFloat f
                         | None => PyNone
                         end)]))
  /\ (forall d,
         ChatReq.options req = Some d -> d <> [] ->
         py_get (chat_payload rt req) "options" PyNone = Return (PyDict d)
         /\ forall f, chat_payload rt (ChatReq.with_temperature req f)
                      = chat_payload rt req)
  /\ (forall ms,
         py_get (chat_payload rt (ChatReq.defaults ms)) "options" PyNone
         = Return (PyDict [(py "temperature", PyFloat float_0_2)])).
Proof.
  split; [apply chat_sends_once|]. split; [reflexivity|].
  assert (Hget : forall r, py_get (chat_payload rt r) "options" PyNone
                           = Return (PyDict (chat_options r))) by reflexivity.
  repeat apply conj.
  - intros [H|H]; rewrite Hget; unfold chat_options; now rewrite H.
  - intros d Hd Hne. split.
    + rewrite Hget. unfold chat_options. rewrite Hd. now destruct d.
    + intros f. unfold chat_payload, chat_options. cbn.
      rewrite Hd. now destruct d.
  - intros ms. now rewrite Hget.
Qed.

(** C8, as the code has it.  When the backend answers with a mapping whose
    message content is a string, [chat] returns the model, that string as
    the reply, and statistics that always hold the three keys
    "total_duration_ns", "eval_count" and "prompt_eval_count": each is the
    value of "total_duration", "eval_count" or "prompt_eval_count" in the
    backend's data, unchanged, and None where the data has no such key. *)
Theorem chat_reply_and_stats req log r d reply :
  be log (chat_request rt req) = Responds r ->
  (status_code r < 400)%Z ->
  json_body r = Return (PyDict d) ->
  reply_content (PyDict d) = Return (PyStr reply) ->
  chat rt req be log
  = (Return {| ChatResp.model := str_or (ChatReq.model req) (DEFAULT_MODEL rt);
               ChatResp.reply := reply;
               ChatResp.stats :=
                 Some [(py "total_duration_ns",
                        match dict_lookup d (py "total_duration") with
                        | Some v => v | None => PyNone end);
                       (py "eval_count",
                        match dict_lookup d (py "eval_count") with
                        | Some v => v | None => PyNone end);
                       (py "prompt_eval_count",
                        match dict_lookup d (py "prompt_eval_count") with
                        | Some v => v | None => PyNone end)] |},
     log ++ [chat_request rt req]).
Proof.
  intros Hbe Hst Hj Hc. unfold chat, bind.
  rewrite (post_ollama_ok rt be _ _ log r (PyDict d) Hbe Hst Hj).
  rewrite lift_run, Hc. reflexivity.
Qed.

End Chat.

Lemma chat_options_default_or_forwarded_witness :
  py_get (chat_payload example_runtime
            {| ChatReq.messages := []; ChatReq.model := None;
               ChatReq.temperature := Some float_0_1;
               ChatReq.options := Some [] |}) "options" PyNone
  = Return (PyDict [(py "temperature", PyFloat float_0_1)])
  /\ py_get (chat_payload example_runtime
               {| ChatReq.messages := []; ChatReq.model := None;
                  ChatReq.temperature := Some float_0_1;
                  ChatReq.options := Some [(py "seed", PyInt 7)] |}) "options" PyNone
     = Return (PyDict [(py "seed", PyInt 7)]).
Proof.
  split.
  - destruct (chat_options_default_or_forwarded example_runtime backend_down
                {| ChatReq.messages := []; ChatReq.model := None;
                   ChatReq.temperature := Some float_0_1;
                   ChatReq.options := Some [] |} []) as (_ & _ & Hdefault & _).
    apply Hdefault. right. reflexivity.
  - destruct (chat_options_default_or_forwarded example_runtime backend_down
                {| ChatReq.messages := []; ChatReq.model := None;
                   ChatReq.temperature := Some float_0_1;
                   ChatReq.options := Some [(py "seed", PyInt 7)] |} [])
      as (_ & _ & _ & Hforward & _).
    apply (Hforward [(py "seed", PyInt 7)]); [reflexivity|discriminate].
Defined.

Lemma chat_reply_and_stats_witness :
  chat example_runtime (ChatReq.defaults [])
    (backend_answers 200 [] (Return (PyDict chat_data_with_stats))) []
  = (Return {| ChatResp.model := py "qwen2:7b";
               ChatResp.reply := py "hi";
               ChatResp.stats :=
                 Some [(py "total_duration_ns", PyInt 5);
                       (py "eval_count", PyInt 3);
                       (py "prompt_eval_count", PyNone)] |},
     [chat_request example_runtime (ChatReq.defaults [])]).
Proof.
  apply (chat_reply_and_stats example_runtime
           (backend_answers 200 [] (Return (PyDict chat_data_with_stats)))
           (ChatReq.defaults []) []
           {| status_code := 200; text := [];
              json_body := Return (PyDict chat_data_with_stats) |}
           chat_data_with_stats (py "hi")).
  - reflexivity.
  - simpl. lia.
  - reflexivity.
  - reflexivity.
Defined.

(** C8 with statistics that are left out when the backend sends none does
    not hold: for a backend reply without statistics the response still
    holds the three keys, with the value None for each. *)
Lemma chat_stats_present_without_backend_stats :
  dict_lookup chat_data_bare (py "total_duration") = None
  /\ dict_lookup chat_data_bare (py "eval_count") = None
  /\ dict_lookup chat_data_bare (py "prompt_eval_count") = None
  /\ fst (chat example_runtime (ChatReq.defaults [])
            (backend_answers 200 [] (Return (PyDict chat_data_bare))) [])
     = Return {| ChatResp.model := py "qwen2:7b";
                 ChatResp.reply := py "hi";
                 ChatResp.stats :=
                   Some [(py "total_duration_ns", PyNone);
                         (py "eval_count", PyNone);
                         (py "prompt_eval_count", PyNone)] |}.
Proof. repeat apply conj; reflexivity. Qed.

(** ** The JSON decoder *)

Section DecoderFacts.

Variable rt : Runtime.

(** The equation of [scan_once]. *)
Lemma scan_once_eq depth s :
  scan_once rt depth s
  = match s with
    | [] => json_fail ExpectingValue
    | c :: r =>
        if c =? 34 then
          match scanstring r [] with
          | Return (v, r') => Return (PyStr v, r')
          | Raise e => Raise e
          end
        else if c =? ch "{" then
          match depth with
          | O => Raise RecursionError
          | S d => parse_object (scan_once rt d) r
          end
        else if c =? ch "[" then
          match depth with
          | O => Raise RecursionError
          | S d => parse_array (scan_once rt d) r
          end
        else scan_atom rt s
    end.
Proof. now destruct depth. Qed.

Lemma array_items_extends scan scan' :
  extends scan scan' ->
  forall n s acc v,
    array_items scan n s acc = Return v -> array_items scan' n s acc = Return v.
Proof.
  intros Hext. induction n as [|n IH]; intros s acc v; cbn [array_items];
    [discriminate|].
  destruct (scan s) as [[x r]|e] eqn:E; [|discriminate].
  rewrite (Hext _ _ E).
  destruct (skip_ws r) as [|c r']; [discriminate|].
  destruct (c =? ch "]"); [trivial|].
  destruct (c =? ch ","); [apply IH|discriminate].
Qed.

Lemma object_items_extends scan scan' :
  extends scan scan' ->
  forall n s acc v,
    object_items scan n s acc = Return v -> object_items scan' n s acc = Return v.
Proof.
  intros Hext. induction n as [|n IH]; intros s acc v; cbn [object_items];
    [discriminate|].
  destruct s as [|q r]; [discriminate|].
  destruct (q =? 34); [|discriminate].
  destruct (scanstring r []) as [[key r1]|e]; [|discriminate].
  destruct (skip_ws r1) as [|c1 r2]; [discriminate|].
  destruct (c1 =? ch ":"); [|discriminate].
  destruct (scan (skip_ws r2)) as [[x r3]|e] eqn:E; [|discriminate].
  rewrite (Hext _ _ E).
  destruct (skip_ws r3) as [|c2 r4]; [discriminate|].
  destruct (c2 =? ch "}"); [trivial|].
  destruct (c2 =? ch ","); [apply IH|discriminate].
Qed.

(** A value decoded within some depth is decoded the same within any
    greater depth. *)
Lemma scan_once_mono d :
  forall d', (d <= d')%nat -> extends (scan_once rt d) (scan_once rt d').
Proof.
  induction d as [|d IH]; intros d' Hle s v; rewrite !scan_once_eq;
    destruct s as [|c r]; trivial;
    destruct (c =? 34); trivial;
    destruct (c =? ch "{"); try discriminate;
    try (destruct (c =? ch "["); [discriminate|trivial]).
  - destruct d' as [|d']; [lia|].
    unfold parse_object.
    destruct (skip_ws r) as [|c' r']; [discriminate|].
    destruct (c' =? ch "}"); [trivial|].
    apply object_items_extends, IH. lia.
  - destruct (c =? ch "["); [|trivial].
    destruct d' as [|d']; [lia|].
    unfold parse_array.
    destruct (skip_ws r) as [|c' r']; [discriminate|].
    destruct (c' =? ch "]"); [trivial|].
    apply array_items_extends, IH. lia.
Qed.

Lemma json_loads_depth s obj d :
  (d <= recursion_limit rt)%nat ->
  (match s with
   | 65279 :: _ => json_fail UnexpectedBOM
   | _ =>
       match scan_once rt d (skip_ws s) with
       | Raise e => Raise e
       | Return (o, r) =>
           match skip_ws r with
           | [] => Return o
           | _ :: _ => json_fail ExtraData
           end
       end
   end) = Return obj ->
  json_loads rt s = Return obj.
Proof.
  intros Hle. unfold json_loads.
  assert (H : forall v, scan_once rt d (skip_ws s) = Return v ->
                        scan_once rt (recursion_limit rt) (skip_ws s) = Return v)
    by (intros v; now apply scan_once_mono).
  destruct (scan_once rt d (skip_ws s)) as [[o r]|e].
  - now rewrite (H _ eq_refl).
  - destruct s as [|c s']; [discriminate|].
    destruct c as [|p]; [discriminate|].
    repeat (destruct p as [p|p|]; try discriminate).
Qed.

End DecoderFacts.

(** ** The loops of the decoder

    The decoder reads at least one character for every value, so that the
    bounds of [array_items] and [object_items], the length of the text, are
    never what ends a loop. *)

Section Consuming.

Variable rt : Runtime.

Lemma span_digits_length s :
  forall ds r, span_digits s = (ds, r) -> (List.length r <= List.length s)%nat.
Proof.
  induction s as [|c s IH]; intros ds r; cbn [span_digits].
  - intros [= <- <-]. simpl. lia.
  - destruct (is_digit c).
    + destruct (span_digits s) as [ds' r'] eqn:E. intros [= <- <-].
      specialize (IH _ _ eq_refl). simpl. lia.
    + intros [= <- <-]. simpl. lia.
Qed.

Lemma match_number_consumes s neg ds rest r :
  match_number s = Some (neg, ds, rest, r) -> (List.length r < List.length s)%nat.
Proof.
  unfold match_number.
  set (p := match s with
            | c :: r0 => if c =? ch "-" then (true, r0) else (false, s)
            | [] => (false, s)
            end).
  assert (Hp : (List.length (snd p) <= List.length s)%nat).
  { subst p. destruct s as [|c r0]; [simpl; lia|].
    destruct (c =? ch "-"); simpl; lia. }
  destruct p as [neg' s1]. cbn [snd] in Hp.
  set (ip := match s1 with
             | c :: r0 =>
                 if (49 <=? c) && (c <=? 57)
                 then let (ds0, r') := span_digits r0 in Some (c :: ds0, r')
                 else if c =? 48 then Some ([c], r0) else None
             | [] => None
             end).
  assert (Hip : forall ds0 r1, ip = Some (ds0, r1) ->
                               (List.length r1 < List.length s1)%nat).
  { subst ip. intros ds0 r1. destruct s1 as [|c r0]; [discriminate|].
    destruct ((49 <=? c) && (c <=? 57)).
    - destruct (span_digits r0) as [ds1 r'] eqn:E. intros [= <- <-].
      apply span_digits_length in E. simpl. lia.
    - destruct (c =? 48); [|discriminate]. intros [= <- <-]. simpl. lia. }
  destruct ip as [[ds0 r1]|]; [|discriminate].
  specialize (Hip _ _ eq_refl).
  set (fr := match r1 with
             | p :: d :: r0 =>
                 if (p =? ch ".") && is_digit d
                 then let (fs, r') := span_digits r0 in (p :: d :: fs, r')
                 else ([], r1)
             | _ => ([], r1)
             end).
  assert (Hfr : (List.length (snd fr) <= List.length r1)%nat).
  { subst fr. destruct r1 as [|p [|d r0]]; try (simpl; lia).
    destruct ((p =? ch ".") && is_digit d); [|simpl; lia].
    destruct (span_digits r0) as [fs r'] eqn:E.
    apply span_digits_length in E. simpl. lia. }
  destruct fr as [frac r2]. cbn [snd] in Hfr.
  set (ex := match r2 with
             | e :: r0 =>
                 if (e =? ch "e") || (e =? ch "E")
                 then
                   let (sign, r') :=
                     match r0 with
                     | g :: (_ :: _) as r'' =>
                         if (g =? ch "-") || (g =? ch "+") then ([g], r'') else ([], r0)
                     | _ => ([], r0)
                     end in
                   match span_digits r' with
                   | ([], _) => ([], r2)
                   | (es, r'') => (e :: sign ++ es, r'')
                   end
                 else ([], r2)
             | [] => ([], r2)
             end).
  assert (Hex : (List.length (snd ex) <= List.length r2)%nat).
  { subst ex. destruct r2 as [|e r0]; [simpl; lia|].
    destruct ((e =? ch "e") || (e =? ch "E")); [|simpl; lia].
    set (sg := match r0 with
               | g :: (_ :: _) as r'' =>
                   if (g =? ch "-") || (g =? ch "+") then ([g], r'') else ([], r0)
               | _ => ([], r0)
               end).
    assert (Hsg : (List.length (snd sg) <= List.length r0)%nat).
    { subst sg. destruct r0 as [|g [|x r'']]; try (simpl; lia).
      destruct ((g =? ch "-") || (g =? ch "+")); simpl; lia. }
    destruct sg as [sign r']. cbn [snd] in Hsg.
    destruct (span_digits r') as [es r''] eqn:E.
    apply span_digits_length in E.
    destruct es; cbn [snd]; simpl; lia. }
  destruct ex as [exp r3]. cbn [snd] in Hex.
  intros [= _ _ _ <-]. lia.
Qed.

Lemma skip_ws_length s : (List.length (skip_ws s) <= List.length s)%nat.
Proof.
  induction s as [|c s IH]; cbn [skip_ws]; [lia|].
  destruct (is_json_ws c); simpl; lia.
Qed.

Lemma skip_ws_cons_length s c r :
  skip_ws s = c :: r -> (List.length r < List.length s)%nat.
Proof.
  intros H. pose proof (skip_ws_length s) as Hl. rewrite H in Hl. simpl in Hl. lia.
Qed.

Lemma strip_prefix_length p :
  forall s r, strip_prefix p s = Some r ->
              List.length s = (List.length p + List.length r)%nat.
Proof.
  induction p as [|x p IH]; intros s r; cbn [strip_prefix].
  - now intros [= ->].
  - destruct s as [|c s]; [discriminate|].
    destruct (char_eqb x c); [|discriminate].
    intros H. apply IH in H. simpl. lia.
Qed.

Lemma scanstring_eq s acc :
  scanstring s acc
  = match s with
    | [] => json_fail UnterminatedString
    | c :: r =>
        if c =? 34 then Return (rev acc, r)
        else if c =? 92 then
          match r with
          | [] => json_fail UnterminatedString
          | e :: r1 =>
              if e =? ch "u" then
                match r1 with
                | h1 :: h2 :: h3 :: h4 :: ((_ :: _) as r2) =>
                    match hex4 h1 h2 h3 h4 with
                    | None => json_fail InvalidUnicodeEscape
                    | Some u =>
                        if is_high_surrogate u then
                          match r2 with
                          | b :: u' :: g1 :: g2 :: g3 :: g4 :: ((_ :: _) as r3) =>
                              if (b =? 92) && (u' =? ch "u") then
                                match hex4 g1 g2 g3 g4 with
                                | None => json_fail InvalidUnicodeEscape
                                | Some u2 =>
                                    if is_low_surrogate u2
                                    then scanstring r3 (join_surrogates u u2 :: acc)
                                    else scanstring r2 (u :: acc)
                                end
                              else scanstring r2 (u :: acc)
                          | _ => scanstring r2 (u :: acc)
                          end
                        else scanstring r2 (u :: acc)
                    end
                | _ => json_fail InvalidUnicodeEscape
                end
              else
                match simple_escape e with
                | Some x => scanstring r1 (x :: acc)
                | None => json_fail InvalidEscape
                end
          end
        else if c <=? 31 then json_fail InvalidControlCharacter
        else scanstring r (c :: acc)
    end.
Proof. now destruct s. Qed.

Lemma scanstring_consumes n :
  forall s acc v r,
    (List.length s <= n)%nat ->
    scanstring s acc = Return (v, r) -> (List.length r < List.length s)%nat.
Proof.
  induction n as [|n IH]; intros s acc v r Hn; rewrite scanstring_eq.
  - destruct s; [discriminate|simpl in Hn; lia].
  - destruct s as [|c r0]; [discriminate|]. simpl in Hn.
    destruct (c =? 34); [intros [= _ <-]; simpl; lia|].
    destruct (c =? 92).
    + destruct r0 as [|e r1]; [discriminate|]. simpl in Hn.
      destruct (e =? ch "u").
      * destruct r1 as [|h1 [|h2 [|h3 [|h4 [|x r2]]]]]; try discriminate.
        simpl in Hn.
        destruct (hex4 h1 h2 h3 h4) as [u|]; [|discriminate].
        assert (Hr2 : forall a, scanstring (x :: r2) a = Return (v, r) ->
                                (List.length r < S (S (S (S (S (S (S (List.length r2))))))))%nat).
        { intros a H. apply IH in H; simpl in *; lia. }
        destruct (is_high_surrogate u); [|apply Hr2].
        destruct r2 as [|u' [|g1 [|g2 [|g3 [|g4 [|y r3]]]]]]; try apply Hr2.
        destruct ((x =? 92) && (u' =? ch "u")); [|apply Hr2].
        destruct (hex4 g1 g2 g3 g4) as [u2|]; [|discriminate].
        destruct (is_low_surrogate u2); [|apply Hr2].
        intros H. apply IH in H; simpl in *; lia.
      * destruct (simple_escape e); [|discriminate].
        intros H. apply IH in H; simpl in *; lia.
    + destruct (c <=? 31); [discriminate|].
      intros H. apply IH in H; simpl in *; lia.
Qed.

Lemma scan_atom_consuming : consuming (scan_atom rt).
Proof.
  intros s v r. unfold scan_atom.
  repeat (match goal with
          | |- context [strip_prefix ?p s] =>
              let E := fresh "E" in
              destruct (strip_prefix p s) eqn:E;
              [apply strip_prefix_length in E; intros [= _ <-];
               rewrite E; simpl; lia|]
          end).
  destruct (match_number s) as [[[[neg ds] rest] r']|] eqn:En; [|discriminate].
  apply match_number_consumes in En.
  destruct (number_value rt neg ds rest); [|discriminate].
  now intros [= _ <-].
Qed.

Lemma array_items_consuming scan :
  consuming scan ->
  forall n s acc v r,
    array_items scan n s acc = Return (v, r) -> (List.length r < List.length s)%nat.
Proof.
  intros Hs. induction n as [|n IH]; intros s acc v r; cbn [array_items];
    [discriminate|].
  destruct (scan s) as [[x r0]|e] eqn:E; [|discriminate].
  apply Hs in E.
  destruct (skip_ws r0) as [|c r'] eqn:Ew; [discriminate|].
  apply skip_ws_cons_length in Ew.
  destruct (c =? ch "]"); [intros [= _ <-]; lia|].
  destruct (c =? ch ","); [|discriminate].
  intros H. apply IH in H. pose proof (skip_ws_length r') as Hw. lia.
Qed.

Lemma object_items_consuming scan :
  consuming scan ->
  forall n s acc v r,
    object_items scan n s acc = Return (v, r) -> (List.length r < List.length s)%nat.
Proof.
  intros Hs. induction n as [|n IH]; intros s acc v r; cbn [object_items];
    [discriminate|].
  destruct s as [|q r0]; [discriminate|].
  destruct (q =? 34); [|discriminate].
  destruct (scanstring r0 []) as [[key r1]|e] eqn:Ek; [|discriminate].
  apply (scanstring_consumes _ _ _ _ _ (le_n _)) in Ek.
  destruct (skip_ws r1) as [|c1 r2] eqn:E1; [discriminate|].
  apply skip_ws_cons_length in E1.
  destruct (c1 =? ch ":"); [|discriminate].
  destruct (scan (skip_ws r2)) as [[x r3]|e] eqn:E; [|discriminate].
  apply Hs in E. pose proof (skip_ws_length r2) as Hw2.
  destruct (skip_ws r3) as [|c2 r4] eqn:E3; [discriminate|].
  apply skip_ws_cons_length in E3.
  destruct (c2 =? ch "}"); [intros [= _ <-]; simpl; lia|].
  destruct (c2 =? ch ","); [|discriminate].
  intros H. apply IH in H. pose proof (skip_ws_length r4) as Hw4. simpl. lia.
Qed.

Lemma scan_once_consuming depth : consuming (scan_once rt depth).
Proof.
  induction depth as [|d IH]; intros s v r; rewrite scan_once_eq;
    destruct s as [|c s']; try discriminate;
    (destruct (c =? 34);
     [destruct (scanstring s' []) as [[x r']|e] eqn:E; [|discriminate];
      apply (scanstring_consumes _ _ _ _ _ (le_n _)) in E;
      intros [= _ <-]; simpl; lia|]);
    destruct (c =? ch "{"); try discriminate.
  - destruct (c =? ch "["); [discriminate|apply scan_atom_consuming].
  - unfold parse_object. pose proof (skip_ws_length s') as Hw.
    destruct (skip_ws s') as [|c' r'] eqn:E; [discriminate|].
    destruct (c' =? ch "}"); [intros [= _ <-]; simpl in *; lia|].
    intros H. apply (object_items_consuming _ IH) in H. simpl in *. lia.
  - destruct (c =? ch "["); [|apply scan_atom_consuming].
    unfold parse_array. pose proof (skip_ws_length s') as Hw.
    destruct (skip_ws s') as [|c' r'] eqn:E; [discriminate|].
    destruct (c' =? ch "]"); [intros [= _ <-]; simpl in *; lia|].
    intros H. apply (array_items_consuming _ IH) in H. simpl in *. lia.
Qed.

(** The bound of the loops is never what stops them: with a bound of at
    least the length of the text, one more round changes nothing. *)
Lemma array_items_bound scan :
  consuming scan -> scan [] = json_fail ExpectingValue ->
  forall n s acc,
    (List.length s <= n)%nat ->
    array_items scan (S n) s acc = array_items scan n s acc.
Proof.
  intros Hs Hnil. induction n as [|n IH]; intros s acc Hn.
  - destruct s; [|simpl in Hn; lia]. cbn [array_items]. now rewrite Hnil.
  - cbn [array_items] in *.
    destruct (scan s) as [[x r0]|e] eqn:E; [|reflexivity].
    apply Hs in E.
    destruct (skip_ws r0) as [|c r'] eqn:Ew; [reflexivity|].
    apply skip_ws_cons_length in Ew.
    destruct (c =? ch "]"); [reflexivity|].
    destruct (c =? ch ","); [|reflexivity].
    apply IH. pose proof (skip_ws_length r'). lia.
Qed.

Lemma object_items_bound scan :
  consuming scan ->
  forall n s acc,
    (List.length s <= n)%nat ->
    object_items scan (S n) s acc = object_items scan n s acc.
Proof.
  intros Hs. induction n as [|n IH]; intros s acc Hn.
  - destruct s; [reflexivity|simpl in Hn; lia].
  - cbn [object_items] in *.
    destruct s as [|q r0]; [reflexivity|]. simpl in Hn.
    destruct (q =? 34); [|reflexivity].
    destruct (scanstring r0 []) as [[key r1]|e] eqn:Ek; [|reflexivity].
    apply (scanstring_consumes _ _ _ _ _ (le_n _)) in Ek.
    destruct (skip_ws r1) as [|c1 r2] eqn:E1; [reflexivity|].
    apply skip_ws_cons_length in E1.
    destruct (c1 =? ch ":"); [|reflexivity].
    destruct (scan (skip_ws r2)) as [[x r3]|e] eqn:E; [|reflexivity].
    apply Hs in E. pose proof (skip_ws_length r2).
    destruct (skip_ws r3) as [|c2 r4] eqn:E3; [reflexivity|].
    apply skip_ws_cons_length in E3.
    destruct (c2 =? ch "}"); [reflexivity|].
    destruct (c2 =? ch ","); [|reflexivity].
    apply IH. pose proof (skip_ws_length r4). lia.
Qed.

(** The loops of the decoder run as long as the text asks for: from the
    length of the text on, every bound gives the same outcome. *)
Theorem decoder_loops_unbounded depth n s :
  (List.length s <= n)%nat ->
  (forall acc, array_items (scan_once rt depth) n s acc
               = array_items (scan_once rt depth) (List.length s) s acc)
  /\ (forall acc, object_items (scan_once rt depth) n s acc
                  = object_items (scan_once rt depth) (List.length s) s acc).
Proof.
  intros Hn. induction Hn as [|n Hn IH]; [split; reflexivity|].
  destruct IH as [IHa IHo]. split; intros acc.
  - rewrite <- IHa. apply array_items_bound; trivial.
    + apply scan_once_consuming.
    + now rewrite scan_once_eq.
  - rewrite <- IHo. apply object_items_bound; trivial.
    apply scan_once_consuming.
Qed.

End Consuming.

(** ** From the raw reply to the result *)

Section Coercion.

Variable rt : Runtime.

(** Once the language is accepted and the backend has replied,
    [_analyze_once] is [coerce] on the raw reply, after one request. *)
Lemma analyze_once_reply be log text language model raw :
  language_accepted (normalize_language rt language) = true ->
  replies_with be log (analyze_request rt text language model) raw ->
  _analyze_once rt text language model be log
  = (coerce rt raw, log ++ [analyze_request rt text language model]).
Proof.
  intros Hacc (r & data & Hbe & Hst & Hj & Hraw).
  unfold _analyze_once. rewrite Hacc. cbn [negb]. unfold bind.
  unfold analyze_request in Hbe.
  rewrite (post_ollama_ok rt be _ _ log r data Hbe Hst Hj).
  now rewrite lift_run, Hraw.
Qed.

Lemma good_object_loads :
  (1 <= recursion_limit rt)%nat ->
  json_loads rt good_object = Return (PyDict good_dict).
Proof.
  intros H. apply (json_loads_depth rt good_object (PyDict good_dict) 1 H).
  vm_compute. reflexivity.
Qed.

(** C4. For the raw reply of the example, extraction yields the embedded
    object, parsing yields a mapping of the four keys, validation yields
    the result with summary "ok", category general, urgency low and
    language "en", and so does [_analyze_once] when the backend replies
    with that text.  The interpreter must let the decoder enter one
    object. *)
Theorem good_reply_round_trip :
  (1 <= recursion_limit rt)%nat ->
  _extract_json good_reply = good_object
  /\ json_loads rt good_object = Return (PyDict good_dict)
  /\ AnalyzeResult.init (PyDict good_dict) = Return good_result
  /\ coerce rt good_reply = Return good_result
  /\ (forall be log text language model,
         language_accepted (normalize_language rt language) = true ->
         replies_with be log (analyze_request rt text language model) good_reply ->
         _analyze_once rt text language model be log
         = (Return good_result, log ++ [analyze_request rt text language model])).
Proof.
  intros Hdepth.
  assert (Hx : _extract_json good_reply = good_object) by (vm_compute; reflexivity).
  assert (Hc : coerce rt good_reply = Return good_result).
  { unfold coerce. rewrite Hx, (good_object_loads Hdepth). reflexivity. }
  repeat apply conj.
  - exact Hx.
  - exact (good_object_loads Hdepth).
  - reflexivity.
  - exact Hc.
  - intros be log text language model Hacc Hrep.
    rewrite (analyze_once_reply be log text language model good_reply Hacc Hrep).
    now rewrite Hc.
Qed.

End Coercion.

Lemma good_reply_round_trip_witness :
  coerce example_runtime good_reply = Return good_result
  /\ _analyze_once example_runtime (py "is the shop open?") (py "EN") None
       (backend_answers 200 [] (Return (reply_data good_reply))) []
     = (Return good_result,
        [analyze_request example_runtime (py "is the shop open?") (py "EN") None]).
Proof.
  assert (Hdepth : (1 <= recursion_limit example_runtime)%nat) by (simpl; lia).
  destruct (good_reply_round_trip example_runtime Hdepth) as (_ & _ & _ & Hc & Hrun).
  split; [exact Hc|].
  apply (Hrun (backend_answers 200 [] (Return (reply_data good_reply))) []).
  - reflexivity.
  - exists {| status_code := 200; text := []; json_body := Return (reply_data good_reply) |},
      (reply_data good_reply).
    repeat split.
Defined.

(** ** Replies that do not hold an object *)

Section NoObject.

Variable rt : Runtime.

Lemma skip_ws_incl x s : In x (skip_ws s) -> In x s.
Proof.
  induction s as [|c s IH]; cbn [skip_ws]; [trivial|].
  destruct (is_json_ws c); [intros H; right; now apply IH|trivial].
Qed.

Lemma array_items_list scan n :
  forall s acc v r, array_items scan n s acc = Return (v, r) -> exists l, v = PyList l.
Proof.
  induction n as [|n IH]; intros s acc v r; cbn [array_items]; [discriminate|].
  destruct (scan s) as [[x r0]|e]; [|discriminate].
  destruct (skip_ws r0) as [|c r']; [discriminate|].
  destruct (c =? ch "]"); [intros [= <- _]; eauto|].
  destruct (c =? ch ","); [apply IH|discriminate].
Qed.

Lemma number_value_not_dict neg ds rest v :
  number_value rt neg ds rest = Return v -> forall d, v <> PyDict d.
Proof.
  unfold number_value. destruct rest.
  - destruct (_ && _); [discriminate|]. intros [= <-]. discriminate.
  - intros [= <-]. discriminate.
Qed.

Lemma scan_atom_not_dict s v r :
  scan_atom rt s = Return (v, r) -> forall d, v <> PyDict d.
Proof.
  unfold scan_atom.
  repeat (match goal with
          | |- context [strip_prefix ?p s] => destruct (strip_prefix p s)
          end; [intros [= <- _]; discriminate|]).
  destruct (match_number s) as [[[[neg ds] rest] r']|]; [|discriminate].
  destruct (number_value rt neg ds rest) as [x|e] eqn:E; [|discriminate].
  intros [= <- _]. exact (number_value_not_dict _ _ _ _ E).
Qed.

(** Only a text that starts with an opening brace decodes to a dict. *)
Lemma scan_once_dict_head depth s d r :
  scan_once rt depth s = Return (PyDict d, r) -> exists s', s = LBRACE :: s'.
Proof.
  rewrite scan_once_eq. destruct s as [|c s']; [discriminate|].
  destruct (c =? 34).
  { destruct (scanstring s' []) as [[v r']|e]; discriminate. }
  destruct (N.eqb_spec c (ch "{")) as [->|_]; [intros _; now exists s'|].
  destruct (c =? ch "[").
  { destruct depth as [|depth]; [discriminate|]. unfold parse_array.
    destruct (skip_ws s') as [|c' r'].
    - discriminate.
    - destruct (c' =? ch "]"); [discriminate|].
      intros H. apply array_items_list in H. destruct H as [l H]. discriminate. }
  intros H. now destruct (scan_atom_not_dict _ _ _ H d).
Qed.

Lemma json_loads_dict_brace s d :
  json_loads rt s = Return (PyDict d) -> In LBRACE s.
Proof.
  unfold json_loads. intros H.
  assert (H' : match scan_once rt (recursion_limit rt) (skip_ws s) with
               | Raise e => Raise e
               | Return (obj, r) =>
                   match skip_ws r with
                   | [] => Return obj
                   | _ :: _ => json_fail ExtraData
                   end
               end = Return (PyDict d)).
  { destruct s as [|c s']; [exact H|].
    destruct c as [|p]; [exact H|].
    repeat (destruct p as [p|p|]; try exact H); discriminate. }
  clear H.
  destruct (scan_once rt (recursion_limit rt) (skip_ws s)) as [[obj r]|e] eqn:E;
    [|discriminate].
  destruct (skip_ws r); [|discriminate].
  injection H' as ->.
  destruct (scan_once_dict_head _ _ _ _ E) as [s' Hs].
  apply skip_ws_incl. rewrite Hs. now left.
Qed.

Lemma extract_without_brace raw : ~ In LBRACE raw -> _extract_json raw = raw.
Proof.
  intros Hn. unfold _extract_json.
  destruct (re_search JSON_RE raw) as [m|] eqn:E; [|reflexivity].
  destruct (search_some _ _ E) as (pre & mid & post & ->).
  exfalso. apply Hn. apply in_or_app. right. now left.
Qed.

Lemma slice_to_length n s : (List.length (slice_to n s) <= n)%nat.
Proof. unfold slice_to. apply firstn_le_length. Qed.

(** C5, as the code has it.  For a raw reply without braces the extraction
    step gives the reply itself, which [json.loads] never decodes to a
    mapping, and the coercion ends in an [HTTPException] with status 500,
    never in a result and never in another exception: "Model returned
    invalid JSON" with the exception of [json.loads] when [json.loads]
    raises one, and "JSON shape mismatch" with a [TypeError] when
    [json.loads] returns a value.  The detail ends with at most 200
    characters of the reply. *)
Theorem no_brace_reply_ends_in_500 raw :
  ~ In LBRACE raw -> ~ In RBRACE raw ->
  _extract_json raw = raw
  /\ ((exists e,
          json_loads rt raw = Raise e
          /\ coerce rt raw
             = Raise (HTTPException 500
                        [FStr (py "Model returned invalid JSON: "); FExc e;
                         FStr (py " | raw="); FStr (slice_to 200 raw)]))
      \/ (exists obj,
             json_loads rt raw = Return obj
             /\ (forall d, obj <> PyDict d)
             /\ coerce rt raw
                = Raise (HTTPException 500
                           [FStr (py "JSON shape mismatch: "); FExc TypeError;
                            FStr (py " | raw="); FStr (slice_to 200 raw)])))
  /\ (List.length (slice_to 200 raw) <= 200)%nat
  /\ (forall be log text language model,
         language_accepted (normalize_language rt language) = true ->
         replies_with be log (analyze_request rt text language model) raw ->
         exists detail,
           _analyze_once rt text language model be log
           = (Raise (HTTPException 500 detail),
              log ++ [analyze_request rt text language model])).
Proof.
  intros Hl _.
  pose proof (extract_without_brace raw Hl) as Hx.
  assert (Hc : (exists e,
                   json_loads rt raw = Raise e
                   /\ coerce rt raw
                      = Raise (HTTPException 500
                                 [FStr (py "Model returned invalid JSON: "); FExc e;
                                  FStr (py " | raw="); FStr (slice_to 200 raw)]))
               \/ (exists obj,
                      json_loads rt raw = Return obj
                      /\ (forall d, obj <> PyDict d)
                      /\ coerce rt raw
                         = Raise (HTTPException 500
                                    [FStr (py "JSON shape mismatch: "); FExc TypeError;
                                     FStr (py " | raw="); FStr (slice_to 200 raw)]))).
  { unfold coerce. rewrite Hx.
    destruct (json_loads rt raw) as [obj|e] eqn:E.
    - right. exists obj. split; [reflexivity|].
      assert (Hnd : forall d, obj <> PyDict d).
      { intros d ->. apply Hl. exact (json_loads_dict_brace _ _ E). }
      split; [exact Hnd|].
      destruct obj; try reflexivity. now destruct (Hnd d).
    - left. now exists e. }
  repeat apply conj.
  - exact Hx.
  - exact Hc.
  - apply slice_to_length.
  - intros be log text language model Hacc Hrep.
    rewrite (analyze_once_reply rt be log text language model raw Hacc Hrep).
    destruct Hc as [(e & _ & ->)|(obj & _ & _ & ->)]; eauto.
Qed.

End NoObject.

Lemma no_brace_reply_ends_in_500_witness :
  _extract_json (py "I cannot help with that.") = py "I cannot help with that."
  /\ exists detail,
      _analyze_once example_runtime (py "hello") (py "auto") None
        (backend_answers 200 [] (Return (reply_data (py "I cannot help with that.")))) []
      = (Raise (HTTPException 500 detail),
         [analyze_request example_runtime (py "hello") (py "auto") None]).
Proof.
  assert (Hl : ~ In LBRACE (py "I cannot help with that."))
    by (vm_compute; intuition discriminate).
  assert (Hr : ~ In RBRACE (py "I cannot help with that."))
    by (vm_compute; intuition discriminate).
  destruct (no_brace_reply_ends_in_500 example_runtime _ Hl Hr) as (Hx & _ & _ & Hrun).
  split; [exact Hx|].
  apply (Hrun (backend_answers 200 []
                 (Return (reply_data (py "I cannot help with that.")))) []).
  - reflexivity.
  - exists {| status_code := 200; text := [];
              json_body := Return (reply_data (py "I cannot help with that.")) |},
      (reply_data (py "I cannot help with that.")).
    repeat split.
Defined.

(** C5 with a parse that always fails does not hold: [json.loads] can
    return a value for a reply without braces.  "42" is parsed, to the
    integer 42, and the error is the shape mismatch, not the invalid JSON
    one. *)
Lemma no_brace_reply_can_parse :
  ~ In LBRACE (py "42") /\ ~ In RBRACE (py "42")
  /\ json_loads example_runtime (_extract_json (py "42")) = Return (PyInt 42)
  /\ coerce example_runtime (py "42")
     = Raise (HTTPException 500
                [FStr (py "JSON shape mismatch: "); FExc TypeError;
                 FStr (py " | raw="); FStr (py "42")]).
Proof.
  repeat apply conj; try (vm_compute; reflexivity);
    vm_compute; intuition discriminate.
Qed.

(** ** Replies of the wrong shape *)

Section ShapeMismatch.

Variable rt : Runtime.

Lemma literal_of_spelling {A} (to_str : A -> str) all s a :
  literal_of to_str all s = Some a -> s = to_str a.
Proof.
  unfold literal_of. intros H. apply find_some in H. destruct H as [_ H].
  apply str_eqb_eq in H. now symmetry.
Qed.

Lemma category_rejected v :
  (forall c, v <> PyStr (Category.to_str c)) ->
  validate_literal Category.to_str Category.all (Some v) = inl literal_error.
Proof.
  intros H. unfold validate_literal. destruct v; try reflexivity.
  destruct (literal_of Category.to_str Category.all s) as [c|] eqn:E; [|reflexivity].
  apply literal_of_spelling in E. subst s. now destruct (H c).
Qed.

Lemma init_category_error d v :
  dict_lookup d (py "category") = Some v ->
  (forall c, v <> PyStr (Category.to_str c)) ->
  exists errors,
    In (py "category", literal_error) errors
    /\ AnalyzeResult.init (PyDict d) = Raise (ValidationError errors).
Proof.
  intros Hv Hout. unfold AnalyzeResult.init.
  rewrite Hv, (category_rejected v Hout).
  exists (field_errors "summary" (validate_str (dict_lookup d (py "summary")))
          ++ field_errors "category" (@inl _ Category.t literal_error)
          ++ field_errors "urgency"
               (validate_literal Urgency.to_str Urgency.all
                  (dict_lookup d (py "urgency")))
          ++ field_errors "language" (validate_str (dict_lookup d (py "language")))).
  split; [|now destruct (validate_str (dict_lookup d (py "summary")))].
  apply in_or_app. right. now left.
Qed.

(** C6. When the text extracted from the raw reply decodes to a mapping
    whose "category" is not one of the strings "general", "complaint",
    "request" and "other", validation fails with an error for the field
    "category", and the coercion ends in an [HTTPException] with status
    500 and the detail "JSON shape mismatch: ", the validation error,
    " | raw=" and the first 200 characters of the raw reply; so does
    [_analyze_once] when the backend replies with that text. *)
Theorem category_outside_enum_is_shape_mismatch raw d v :
  json_loads rt (_extract_json raw) = Return (PyDict d) ->
  dict_lookup d (py "category") = Some v ->
  (forall c, v <> PyStr (Category.to_str c)) ->
  exists errors,
    In (py "category", literal_error) errors
    /\ AnalyzeResult.init (PyDict d) = Raise (ValidationError errors)
    /\ coerce rt raw
       = Raise (HTTPException 500
                  [FStr (py "JSON shape mismatch: "); FExc (ValidationError errors);
                   FStr (py " | raw="); FStr (slice_to 200 raw)])
    /\ (List.length (slice_to 200 raw) <= 200)%nat
    /\ (forall be log text language model,
           language_accepted (normalize_language rt language) = true ->
           replies_with be log (analyze_request rt text language model) raw ->
           _analyze_once rt text language model be log
           = (Raise (HTTPException 500
                       [FStr (py "JSON shape mismatch: "); FExc (ValidationError errors);
                        FStr (py " | raw="); FStr (slice_to 200 raw)]),
              log ++ [analyze_request rt text language model])).
Proof.
  intros Hj Hv Hout.
  destruct (init_category_error d v Hv Hout) as (errors & Hin & Hinit).
  assert (Hc : coerce rt raw
               = Raise (HTTPException 500
                          [FStr (py "JSON shape mismatch: ");
                           FExc (ValidationError errors);
                           FStr (py " | raw="); FStr (slice_to 200 raw)])).
  { unfold coerce. now rewrite Hj, Hinit. }
  exists errors. repeat apply conj; trivial.
  - apply slice_to_length.
  - intros be log text language model Hacc Hrep.
    rewrite (analyze_once_reply rt be log text language model raw Hacc Hrep).
    now rewrite Hc.
Qed.

End ShapeMismatch.

Lemma category_outside_enum_is_shape_mismatch_witness :
  exists errors,
    In (py "category", literal_error) errors
    /\ coerce example_runtime urgent_reply
       = Raise (HTTPException 500
                  [FStr (py "JSON shape mismatch: "); FExc (ValidationError errors);
                   FStr (py " | raw="); FStr (slice_to 200 urgent_reply)]).
Proof.
  assert (Hj : json_loads example_runtime (_extract_json urgent_reply)
               = Return (PyDict urgent_dict)) by (vm_compute; reflexivity).
  assert (Hv : dict_lookup urgent_dict (py "category") = Some (PyStr (py "urgent")))
    by reflexivity.
  assert (Hout : forall c, PyStr (py "urgent") <> PyStr (Category.to_str c)).
  { intros c H. destruct c; vm_compute in H; discriminate. }
  destruct (category_outside_enum_is_shape_mismatch example_runtime
              urgent_reply urgent_dict _ Hj Hv Hout)
    as (errors & Hin & _ & Hc & _).
  exists errors. split; [exact Hin|exact Hc].
Defined.

(** ** The decoder and the validation on examples *)

Example float_literals :
  float_of_literal (py "0.2") = float_0_2
  /\ float_of_literal (py "0.1") = float_0_1
  /\ float_of_literal (py "1e400") = S754_infinity false
  /\ float_of_literal (py "-0.0") = S754_zero true.
Proof. repeat split. Qed.

Example loads_values :
  json_loads example_runtime (py " [1, -2.5e-1, null, true, [], {}] ")
  = Return (PyList [PyInt 1; PyFloat (S754_finite true 4503599627370496 (-54));
                    PyNone; PyBool true; PyList []; PyDict []])
  /\ json_loads example_runtime (quoted "café 😀")
     = Return (PyStr (py "café 😀"))
  /\ json_loads example_runtime
       (py "{" ++ quoted "a" ++ py ":1," ++ quoted "b" ++ py ":2," ++ quoted "a" ++ py ":3}")
     = Return (PyDict [(py "a", PyInt 3); (py "b", PyInt 2)]).
Proof. repeat split. Qed.

Example loads_errors :
  json_loads example_runtime [] = Raise (JSONDecodeError ExpectingValue)
  /\ json_loads example_runtime (py "[1,]") = Raise (JSONDecodeError ExpectingValue)
  /\ json_loads example_runtime (py "[1 2]") = Raise (JSONDecodeError ExpectingComma)
  /\ json_loads example_runtime (py "1.") = Raise (JSONDecodeError ExtraData)
  /\ json_loads example_runtime (py "{} {}") = Raise (JSONDecodeError ExtraData)
  /\ json_loads example_runtime (py "{1:2}") = Raise (JSONDecodeError ExpectingPropertyName)
  /\ json_loads example_runtime (py "Sure!") = Raise (JSONDecodeError ExpectingValue).
Proof. repeat split. Qed.

Example extract_examples :
  _extract_json (py "{a} and {b}") = py "{a} and {b}"
  /\ _extract_json (py "x {a}} y") = py "{a}}"
  /\ _extract_json (py "} {") = py "} {"
  /\ _extract_json (py "no braces") = py "no braces".
Proof. repeat split. Qed.

Example init_examples :
  AnalyzeResult.init (PyDict good_dict) = Return good_result
  /\ AnalyzeResult.init (PyDict urgent_dict)
     = Raise (ValidationError [(py "category", literal_error)])
  /\ AnalyzeResult.init (PyDict [(py "summary", PyInt 1)])
     = Raise (ValidationError [(py "summary", string_type); (py "category", missing);
                               (py "urgency", missing); (py "language", missing)])
  /\ AnalyzeResult.init (PyList []) = Raise TypeError.
Proof. repeat split. Qed.

(** * Further properties of the service *)

(** ** [_extract_json]: the shape of its result *)

Section ExtractShape.

Lemma star_some_last s m :
  match_here [DotStar; Chr RBRACE] s = Some m ->
  exists mid post,
    s = mid ++ RBRACE :: post /\ m = mid ++ [RBRACE] /\ ~ In RBRACE post.
Proof.
  revert m. induction s as [|x s IH]; intros m H; [discriminate|].
  rewrite match_star_cons in H.
  destruct (match_here [DotStar; Chr RBRACE] s) as [m'|] eqn:E.
  - injection H as <-.
    destruct (IH m' eq_refl) as (mid & post & -> & -> & Hp).
    now exists (x :: mid), post.
  - rewrite match_rbrace in H. unfold char_eqb in H.
    destruct (N.eqb_spec x RBRACE) as [->|]; [|discriminate].
    injection H as <-. exists [], s. repeat split.
    intros Hin. apply in_split in Hin. destruct Hin as (a & b & ->).
    exact (star_any a b E).
Qed.

Lemma here_brace_some s :
  In RBRACE s -> match_here JSON_RE (LBRACE :: s) <> None.
Proof.
  intros Hin. apply in_split in Hin. destruct Hin as (a & b & ->).
  unfold JSON_RE. rewrite match_chr_cons. unfold char_eqb. rewrite N.eqb_refl.
  pose proof (star_any a b) as H.
  destruct (match_here [DotStar; Chr RBRACE] (a ++ RBRACE :: b));
    [discriminate|contradiction].
Qed.

(** The match that [re.search] finds, with the text around it. *)
Lemma search_some_shape s m :
  re_search JSON_RE s = Some m ->
  exists pre mid post,
    s = pre ++ LBRACE :: mid ++ RBRACE :: post
    /\ m = LBRACE :: mid ++ [RBRACE]
    /\ ~ In LBRACE pre /\ ~ In RBRACE post.
Proof.
  revert m. induction s as [|x s IH]; intros m H; [discriminate|].
  cbn [re_search] in H.
  destruct (match_here JSON_RE (x :: s)) as [m'|] eqn:E.
  - injection H as <-.
    assert (Hx : x = LBRACE).
    { destruct (here_some _ _ E) as (mid & post & [= -> _] & _). reflexivity. }
    subst x. unfold JSON_RE in E. rewrite match_chr_cons in E.
    unfold char_eqb in E. rewrite N.eqb_refl in E.
    destruct (match_here [DotStar; Chr RBRACE] s) as [m''|] eqn:Es; [|discriminate].
    injection E as <-.
    destruct (star_some_last _ _ Es) as (mid & post & -> & -> & Hp).
    exists [], mid, post. repeat split; trivial. intros [].
  - destruct (IH m H) as (pre & mid & post & -> & -> & Hpre & Hpost).
    exists (x :: pre), mid, post. repeat split; trivial.
    intros [->|Hin]; [|now apply Hpre].
    apply (here_brace_some (pre ++ LBRACE :: mid ++ RBRACE :: post)); [|exact E].
    apply in_or_app. right. right. apply in_or_app. right. now left.
Qed.

(** X1. Extracting twice is extracting once: the result of
    [_extract_json] is left as it is by a second extraction. *)
Theorem extract_json_idempotent text :
  _extract_json (_extract_json text) = _extract_json text.
Proof.
  unfold _extract_json at 2 3.
  destruct (re_search JSON_RE text) as [m|] eqn:E.
  - destruct (search_some_shape _ _ E) as (pre & mid & post & _ & -> & _).
    unfold _extract_json.
    change (LBRACE :: mid ++ [RBRACE]) with ([] ++ LBRACE :: mid ++ RBRACE :: []).
    rewrite search_first; [reflexivity|intros []|intros []].
  - unfold _extract_json. now rewrite E.
Qed.

(** X2. The two cases of [_extract_json] are the only ones.  Either the
    text splits into a part without opening brace, an opening
    brace, a middle, a closing brace and a part without closing brace, and
    the result is the braces with the middle; or no closing brace follows
    an opening brace and the result is the text.  The result is never
    longer than the text. *)
Theorem extract_json_cases text :
  ((exists pre mid post,
       text = pre ++ LBRACE :: mid ++ RBRACE :: post
       /\ ~ In LBRACE pre /\ ~ In RBRACE post
       /\ _extract_json text = LBRACE :: mid ++ [RBRACE])
   \/ ((forall pre mid post, text <> pre ++ LBRACE :: mid ++ RBRACE :: post)
       /\ _extract_json text = text))
  /\ (List.length (_extract_json text) <= List.length text)%nat.
Proof.
  unfold _extract_json.
  destruct (re_search JSON_RE text) as [m|] eqn:E.
  - destruct (search_some_shape _ _ E) as (pre & mid & post & -> & -> & Hpre & Hpost).
    split.
    + left. now exists pre, mid, post.
    + rewrite !length_app. simpl. rewrite !length_app. simpl. lia.
  - split; [|lia]. right. split; [|reflexivity].
    intros pre mid post ->. exact (search_any pre mid post E).
Qed.

End ExtractShape.

(** ** [_pick_system_msg]: which language gives which template *)

(** X3. The template tells the language: [_pick_system_msg] gives the Thai
    template for "th" only, the English one for "en" only, and the
    auto-detect one for the other strings only; it gives no fourth text.
    The spelling counts: no other capitalisation of "th" or "en" is one of
    them. *)
Theorem pick_system_msg_converse lang :
  (_pick_system_msg lang = SYSTEM_THAI <-> lang = py "th")
  /\ (_pick_system_msg lang = SYSTEM_EN <-> lang = py "en")
  /\ (_pick_system_msg lang = SYSTEM_AUTO <-> lang <> py "th" /\ lang <> py "en")
  /\ (_pick_system_msg lang = SYSTEM_THAI \/ _pick_system_msg lang = SYSTEM_EN
      \/ _pick_system_msg lang = SYSTEM_AUTO).
Proof.
  destruct templates_distinct as (Hte & Hta & Hea).
  assert (Hne : py "th" <> py "en") by (vm_compute; discriminate).
  unfold _pick_system_msg.
  assert (Hauto : (if str_eqb lang (py "multi") then SYSTEM_AUTO else SYSTEM_AUTO)
                  = SYSTEM_AUTO) by now destruct (str_eqb lang (py "multi")).
  rewrite Hauto. clear Hauto.
  pose proof (str_eqb_eq lang (py "th")) as Hth.
  pose proof (str_eqb_eq lang (py "en")) as Hen.
  revert Hte Hta Hea Hne Hth Hen.
  generalize SYSTEM_THAI SYSTEM_EN SYSTEM_AUTO (py "th") (py "en").
  intros T E A th en Hte Hta Hea Hne Hth Hen.
  destruct (str_eqb lang th).
  - assert (Hl : lang = th) by now apply Hth.
    subst lang. intuition congruence.
  - assert (Hl : lang <> th) by (intros H; apply Hth in H; discriminate).
    destruct (str_eqb lang en).
    + assert (Hl' : lang = en) by now apply Hen.
      subst lang. intuition congruence.
    + assert (Hl' : lang <> en) by (intros H; apply Hen in H; discriminate).
      intuition congruence.
Qed.

(** ** [_post_ollama]: the answers below 400, and the statuses it raises *)

Section PostOllamaMore.

Variable rt : Runtime.
Variable be : Backend.

(** X4. When the backend answers with a status below 400, [_post_ollama]
    returns the decoded body of the response; when the body does not
    decode, the exception of [r.json()] is not caught and not turned into
    an [HTTPException].  One request has been sent. *)
Theorem post_ollama_below_400 path payload log r :
  be log {| url := OLLAMA_BASE_URL rt ++ path; json := payload; timeout := 300 |}
  = Responds r ->
  (status_code r < 400)%Z ->
  _post_ollama rt path payload be log
  = (match json_body r with
     | Return data => Return data
     | Raise e => Raise (Lib e)
     end,
     log ++ [{| url := OLLAMA_BASE_URL rt ++ path; json := payload; timeout := 300 |}]).
Proof.
  intros Hbe Hst. rewrite post_ollama_run. cbv zeta. rewrite Hbe.
  apply Z.leb_gt in Hst. now rewrite Hst.
Qed.

(** X5. Whatever the backend does, [_post_ollama] sends one request and no
    more, to the base URL followed by the path, with the payload and a
    timeout of 300 seconds; and the only [HTTPException] it raises has the
    status 502. *)
Theorem post_ollama_one_request_status_502 path payload log :
  snd (_post_ollama rt path payload be log)
  = log ++ [{| url := OLLAMA_BASE_URL rt ++ path; json := payload; timeout := 300 |}]
  /\ forall code detail,
      fst (_post_ollama rt path payload be log) = Raise (HTTPException code detail) ->
      code = 502%Z.
Proof.
  rewrite post_ollama_run. cbv zeta. split; [reflexivity|].
  intros code detail. cbn [fst].
  destruct (be log _) as [r|info]; [|now intros [= <- _]].
  destruct (400 <=? status_code r)%Z; [now intros [= <- _]|].
  destruct (json_body r); discriminate.
Qed.

End PostOllamaMore.

Lemma post_ollama_below_400_witness :
  _post_ollama example_runtime (py "/api/chat") PyNone
    (backend_answers 200 (py "<html>") (Raise (JSONDecodeError ExpectingValue))) []
  = (Raise (Lib (JSONDecodeError ExpectingValue)),
     [{| url := py "http://127.0.0.1:11434/api/chat"; json := PyNone; timeout := 300 |}]).
Proof.
  apply (post_ollama_below_400 example_runtime
           (backend_answers 200 (py "<html>") (Raise (JSONDecodeError ExpectingValue)))
           (py "/api/chat") PyNone []
           {| status_code := 200; text := py "<html>";
              json_body := Raise (JSONDecodeError ExpectingValue) |}).
  - reflexivity.
  - simpl. lia.
Defined.

(** ** [_analyze_once]: requests, templates, statuses and empty replies *)

Section AnalyzeOnceMore.

Variable rt : Runtime.
Variable be : Backend.


Lemma coerce_outcome raw :
  (exists res, coerce rt raw = Return res)
  \/ (exists e,
         coerce rt raw
         = Raise (HTTPException 500
                    [FStr (py "Model returned invalid JSON: "); FExc e;
                     FStr (py " | raw="); FStr (slice_to 200 raw)]))
  \/ (exists e,
         coerce rt raw
         = Raise (HTTPException 500
                    [FStr (py "JSON shape mismatch: "); FExc e;
                     FStr (py " | raw="); FStr (slice_to 200 raw)])).
Proof.
  unfold coerce. destruct (json_loads rt (_extract_json raw)) as [obj|e].
  - destruct (AnalyzeResult.init obj) as [res|e].
    + left. now exists res.
    + right. right. now exists e.
  - right. left. now exists e.
Qed.




Lemma analyze_once_log text language model log :
  snd (_analyze_once rt text language model be log)
  = if language_accepted (normalize_language rt language)
    then log ++ [analyze_request rt text language model]
    else log.
Proof.
  unfold _analyze_once.
  destruct (language_accepted (normalize_language rt language)); [|reflexivity].
  cbn [negb]. unfold bind. rewrite post_ollama_run. cbv zeta.
  fold (analyze_request rt text language model).
  destruct (be log (analyze_request rt text language model)) as [r|info];
    [|reflexivity].
  destruct (400 <=? status_code r)%Z; [reflexivity|].
  destruct (json_body r) as [data|e]; [|reflexivity].
  rewrite lift_run. now destruct (reply_text data).
Qed.

(** X6. [_analyze_once] sends one request when the language is accepted,
    the request of the analysis, and none when it is not, however the call
    ends; so do the handlers of the two analyze routes, which send nothing
    of their own. *)
Theorem analyze_once_requests text language model log :
  snd (_analyze_once rt text language model be log)
  = (if language_accepted (normalize_language rt language)
     then log ++ [analyze_request rt text language model]
     else log)
  /\ snd (analyze_get rt text language model be log)
     = snd (_analyze_once rt text language model be log)
  /\ (forall req,
         snd (analyze rt req be log)
         = snd (_analyze_once rt (AnalyzeReq.text req)
                  (Lang.to_str (AnalyzeReq.language req)) (AnalyzeReq.model req) be log)).
Proof.
  split; [apply analyze_once_log|]. split.
  - unfold analyze_get, bind.
    now destruct (_analyze_once rt text language model be log) as [[res|e] log'].
  - intros req. unfold analyze, bind.
    now destruct (_analyze_once rt (AnalyzeReq.text req)
                    (Lang.to_str (AnalyzeReq.language req))
                    (AnalyzeReq.model req) be log) as [[res|e] log'].
Qed.


(** X8. The [HTTPException]s of [_analyze_once] have three statuses: 422,
    raised before any request is sent, and 502 and 500, raised after the
    one request. *)
Theorem analyze_once_statuses text language model log code detail :
  fst (_analyze_once rt text language model be log) = Raise (HTTPException code detail) ->
  (code = 422%Z /\ snd (_analyze_once rt text language model be log) = log)
  \/ ((code = 502%Z \/ code = 500%Z)
      /\ snd (_analyze_once rt text language model be log)
         = log ++ [analyze_request rt text language model]).
Proof.
  rewrite analyze_once_log. unfold _analyze_once.
  destruct (language_accepted (normalize_language rt language)).
  - cbn [negb]. unfold bind. rewrite post_ollama_run. cbv zeta.
    fold (analyze_request rt text language model).
    intros H. right. split; [|reflexivity]. revert H.
    destruct (be log (analyze_request rt text language model)) as [r|info];
      [|intros [= <- _]; now left].
    destruct (400 <=? status_code r)%Z; [intros [= <- _]; now left|].
    destruct (json_body r) as [data|e]; [|discriminate].
    rewrite lift_run. destruct (reply_text data) as [raw|e]; [|discriminate].
    cbn [fst].
    destruct (coerce_outcome raw) as [(res & ->)|[(e & ->)|(e & ->)]];
      [discriminate| |]; intros [= <- _]; now right.
  - cbn [negb fst]. unfold raise. cbn [fst]. intros [= <- _]. now left.
Qed.

End AnalyzeOnceMore.


Lemma analyze_once_statuses_witness :
  snd (_analyze_once example_runtime (py "hello") (py "en") None backend_down [])
  = [analyze_request example_runtime (py "hello") (py "en") None].
Proof.
  destruct (analyze_once_statuses example_runtime backend_down
              (py "hello") (py "en") None [] 502
              [FStr (py "Ollama unreachable: ");
               FExc (RequestException (py "connection refused"))] eq_refl)
    as [[H _]|[_ H]].
  - discriminate.
  - exact H.
Defined.

Section EmptyReplies.

Variable rt : Runtime.
Variable be : Backend.

Lemma json_loads_empty : json_loads rt [] = Raise (JSONDecodeError ExpectingValue).
Proof. unfold json_loads. cbn [skip_ws]. now rewrite scan_once_eq. Qed.

Lemma coerce_empty :
  coerce rt []
  = Raise (HTTPException 500
             [FStr (py "Model returned invalid JSON: ");
              FExc (JSONDecodeError ExpectingValue);
              FStr (py " | raw="); FStr []]).
Proof.
  unfold coerce. change (_extract_json []) with (@nil char).
  now rewrite json_loads_empty.
Qed.

(** A mapping without message, or with a message that counts as false
    (null, an empty mapping, an empty string or list, zero, false), has the
    empty string as content. *)
Lemma reply_content_absent d :
  (dict_lookup d (py "message") = None
   \/ exists m, dict_lookup d (py "message") = Some m /\ truthy m = false) ->
  reply_content (PyDict d) = Return (PyStr []).
Proof.
  unfold reply_content, py_get, py_or.
  intros [H|(m & H & Hm)]; rewrite H; [reflexivity|]. now rewrite Hm.
Qed.

(** X9. When the backend answers with a mapping that has no message, or
    a message that counts as false, the raw reply is the empty string and
    [_analyze_once] ends in the status 500 "Model returned invalid JSON",
    with the decoder's "Expecting value" and an empty snippet. *)
Theorem analyze_once_without_message text language model log r d :
  language_accepted (normalize_language rt language) = true ->
  be log (analyze_request rt text language model) = Responds r ->
  (status_code r < 400)%Z ->
  json_body r = Return (PyDict d) ->
  (dict_lookup d (py "message") = None
   \/ exists m, dict_lookup d (py "message") = Some m /\ truthy m = false) ->
  _analyze_once rt text language model be log
  = (Raise (HTTPException 500
              [FStr (py "Model returned invalid JSON: ");
               FExc (JSONDecodeError ExpectingValue);
               FStr (py " | raw="); FStr []]),
     log ++ [analyze_request rt text language model]).
Proof.
  intros Hacc Hbe Hst Hj Hm.
  rewrite (analyze_once_reply rt be log text language model []).
  - now rewrite coerce_empty.
  - exact Hacc.
  - exists r, (PyDict d). repeat split; trivial.
    unfold reply_text. now rewrite (reply_content_absent d Hm).
Qed.

(** X10. In the same case [chat] succeeds, with the empty string as
    reply. *)
Theorem chat_without_message req log r d :
  be log (chat_request rt req) = Responds r ->
  (status_code r < 400)%Z ->
  json_body r = Return (PyDict d) ->
  (dict_lookup d (py "message") = None
   \/ exists m, dict_lookup d (py "message") = Some m /\ truthy m = false) ->
  exists stats,
    chat rt req be log
    = (Return {| ChatResp.model := str_or (ChatReq.model req) (DEFAULT_MODEL rt);
                 ChatResp.reply := [];
                 ChatResp.stats := Some stats |},
       log ++ [chat_request rt req]).
Proof.
  intros Hbe Hst Hj Hm. eexists. unfold chat, bind.
  rewrite (post_ollama_ok rt be _ _ log r (PyDict d) Hbe Hst Hj).
  rewrite lift_run, (reply_content_absent d Hm). reflexivity.
Qed.

(** X11. When the body of the backend's answer decodes to something that
    is not a mapping (a list, a string, a number, null), [data.get] raises
    an [AttributeError] that nothing catches, in [chat] and in
    [_analyze_once] alike, after the request has been sent. *)
Theorem body_not_mapping_escapes log r data :
  (forall d, data <> PyDict d) ->
  (status_code r < 400)%Z ->
  json_body r = Return data ->
  (forall req,
      be log (chat_request rt req) = Responds r ->
      chat rt req be log = (Raise (Lib AttributeError), log ++ [chat_request rt req]))
  /\ (forall text language model,
         language_accepted (normalize_language rt language) = true ->
         be log (analyze_request rt text language model) = Responds r ->
         _analyze_once rt text language model be log
         = (Raise (Lib AttributeError),
            log ++ [analyze_request rt text language model])).
Proof.
  intros Hd Hst Hj.
  assert (Hc : reply_content data = Raise AttributeError).
  { destruct data; try reflexivity. now destruct (Hd d). }
  split.
  - intros req Hbe. unfold chat, bind.
    rewrite (post_ollama_ok rt be _ _ log r data Hbe Hst Hj).
    now rewrite lift_run, Hc.
  - intros text language model Hacc Hbe. unfold _analyze_once.
    rewrite Hacc. cbn [negb]. unfold bind. unfold analyze_request in Hbe.
    rewrite (post_ollama_ok rt be _ _ log r data Hbe Hst Hj).
    rewrite lift_run. unfold reply_text. now rewrite Hc.
Qed.

End EmptyReplies.

Lemma analyze_once_without_message_witness :
  _analyze_once example_runtime (py "hello") (py "en") None
    (backend_answers 200 [] (Return (PyDict [(py "done", PyBool true)]))) []
  = (Raise (HTTPException 500
              [FStr (py "Model returned invalid JSON: ");
               FExc (JSONDecodeError ExpectingValue);
               FStr (py " | raw="); FStr []]),
     [analyze_request example_runtime (py "hello") (py "en") None]).
Proof.
  apply (analyze_once_without_message example_runtime
           (backend_answers 200 [] (Return (PyDict [(py "done", PyBool true)])))
           (py "hello") (py "en") None []
           {| status_code := 200; text := [];
              json_body := Return (PyDict [(py "done", PyBool true)]) |}
           [(py "done", PyBool true)]).
  - reflexivity.
  - reflexivity.
  - simpl. lia.
  - reflexivity.
  - left. reflexivity.
Defined.

Lemma chat_without_message_witness :
  exists stats,
    chat example_runtime (ChatReq.defaults [])
      (backend_answers 200 [] (Return (PyDict [(py "message", PyDict [])]))) []
    = (Return {| ChatResp.model := py "qwen2:7b"; ChatResp.reply := [];
                 ChatResp.stats := Some stats |},
       [chat_request example_runtime (ChatReq.defaults [])]).
Proof.
  apply (chat_without_message example_runtime
           (backend_answers 200 [] (Return (PyDict [(py "message", PyDict [])])))
           (ChatReq.defaults []) []
           {| status_code := 200; text := [];
              json_body := Return (PyDict [(py "message", PyDict [])]) |}
           [(py "message", PyDict [])]).
  - reflexivity.
  - simpl. lia.
  - reflexivity.
  - right. exists (PyDict []). split; reflexivity.
Defined.

Lemma body_not_mapping_escapes_witness :
  chat example_runtime (ChatReq.defaults [])
    (backend_answers 200 [] (Return (PyList []))) []
  = (Raise (Lib AttributeError), [chat_request example_runtime (ChatReq.defaults [])]).
Proof.
  assert (Hd : forall d, PyList [] <> PyDict d) by discriminate.
  assert (Hst : (status_code {| status_code := 200; text := [];
                                json_body := Return (PyList []) |} < 400)%Z)
    by (simpl; lia).
  destruct (body_not_mapping_escapes example_runtime
              (backend_answers 200 [] (Return (PyList []))) []
              _ (PyList []) Hd Hst eq_refl) as [Hchat _].
  apply Hchat. reflexivity.
Defined.

(** ** The language of an analysis: letter case *)

Lemma ascii_lower_char_idem c : ascii_lower_char (ascii_lower_char c) = ascii_lower_char c.
Proof.
  unfold ascii_lower_char.
  destruct ((65 <=? c) && (c <=? 90)) eqn:E; [|now rewrite E].
  apply andb_true_iff in E. destruct E as [E1 E2].
  apply N.leb_le in E1. apply N.leb_le in E2.
  replace (c + 32 <=? 90) with false by (symmetry; apply N.leb_gt; lia).
  now rewrite andb_false_r.
Qed.

Lemma ascii_lower_idem s : ascii_lower (ascii_lower s) = ascii_lower s.
Proof.
  unfold ascii_lower. rewrite map_map. apply map_ext. apply ascii_lower_char_idem.
Qed.

Lemma ascii_lower_is_ascii s : is_ascii s -> is_ascii (ascii_lower s).
Proof.
  unfold is_ascii, ascii_lower. intros H. apply Forall_map.
  apply (Forall_impl _ (P := fun c => c < 128)); [|exact H].
  intros c Hc. unfold ascii_lower_char.
  destruct ((65 <=? c) && (c <=? 90)) eqn:E; [|exact Hc].
  apply andb_true_iff in E. destruct E as [_ E2]. apply N.leb_le in E2. lia.
Qed.

Section LetterCase.

Variable rt : Runtime.
Variable be : Backend.

Hypothesis lower_ascii : forall s, is_ascii s -> str_lower rt s = ascii_lower s.

Lemma normalize_ascii language :
  is_ascii language ->
  normalize_language rt language = ascii_lower (or_else language (py "auto")).
Proof.
  intros H. unfold normalize_language. apply lower_ascii.
  destruct language; [|exact H]. vm_compute. repeat constructor.
Qed.

(** X12. The letter case of an ASCII language does not matter to
    [_analyze_once] nor to [analyze_get]: a language is handled as its
    lowercase spelling is, "TH" as "th" and "Auto" as "auto". *)
Theorem analyze_language_case_insensitive text language model log :
  is_ascii language ->
  _analyze_once rt text language model be log
  = _analyze_once rt text (ascii_lower language) model be log
  /\ analyze_get rt text language model be log
     = analyze_get rt text (ascii_lower language) model be log.
Proof.
  intros H.
  assert (Hn : normalize_language rt language
               = normalize_language rt (ascii_lower language)).
  { rewrite !normalize_ascii by (trivial; now apply ascii_lower_is_ascii).
    destruct language as [|c l]; [reflexivity|].
    change (or_else (c :: l) (py "auto")) with (c :: l).
    change (or_else (ascii_lower (c :: l)) (py "auto")) with (ascii_lower (c :: l)).
    now rewrite ascii_lower_idem. }
  assert (Ho : _analyze_once rt text language model be log
               = _analyze_once rt text (ascii_lower language) model be log).
  { unfold _analyze_once. now rewrite Hn. }
  split; [exact Ho|]. unfold analyze_get, bind. now rewrite Ho.
Qed.

End LetterCase.

Lemma analyze_language_case_insensitive_witness :
  _analyze_once example_runtime (py "hello") (py "Auto") None backend_down []
  = _analyze_once example_runtime (py "hello") (py "auto") None backend_down [].
Proof.
  assert (H : is_ascii (py "Auto")) by (vm_compute; repeat constructor).
  destruct (analyze_language_case_insensitive example_runtime backend_down
              (fun s _ => eq_refl) (py "hello") (py "Auto") None [] H) as [Ho _].
  exact Ho.
Defined.

(** ** The coercion: what it ends in, and what it accepts *)

Section CoercionMore.

Variable rt : Runtime.

Lemma extract_json_incl x raw : In x (_extract_json raw) -> In x raw.
Proof.
  unfold _extract_json.
  destruct (re_search JSON_RE raw) as [m|] eqn:E; [|trivial].
  destruct (search_some_shape _ _ E) as (pre & mid & post & -> & -> & _).
  intros H. apply in_or_app. right.
  destruct H as [H|H]; [now left|]. right.
  apply in_app_or in H. apply in_or_app.
  destruct H as [H|[H|[]]]; [now left|right; now left].
Qed.

(** X13. Lines 127-135 let no exception through but an [HTTPException]
    with status 500.  For every raw reply the coercion ends in a
    validated result, or in "Model returned invalid JSON: " or "JSON shape
    mismatch: " followed by the caught exception, " | raw=" and the start of
    the raw reply: the whole reply when it has 200 characters or fewer,
    its first 200 characters otherwise. *)
Theorem coerce_result_or_500 raw :
  ((exists res, coerce rt raw = Return res)
   \/ (exists e,
          coerce rt raw
          = Raise (HTTPException 500
                     [FStr (py "Model returned invalid JSON: "); FExc e;
                      FStr (py " | raw="); FStr (slice_to 200 raw)]))
   \/ (exists e,
          coerce rt raw
          = Raise (HTTPException 500
                     [FStr (py "JSON shape mismatch: "); FExc e;
                      FStr (py " | raw="); FStr (slice_to 200 raw)])))
  /\ ((List.length raw <= 200)%nat -> slice_to 200 raw = raw)
  /\ ((200 < List.length raw)%nat -> List.length (slice_to 200 raw) = 200%nat)
  /\ (exists rest, raw = slice_to 200 raw ++ rest).
Proof.
  split; [apply coerce_outcome|]. unfold slice_to. repeat apply conj.
  - intros H. now apply firstn_all2.
  - intros H. apply firstn_length_le. lia.
  - exists (skipn 200 raw). symmetry. apply firstn_skipn.
Qed.

(** X14. The coercion returns a result only for a raw reply that holds an
    opening brace, from which the text extracted decodes to a mapping that
    passes validation; the result is the validated mapping. *)
Theorem coerce_success raw res :
  coerce rt raw = Return res ->
  In LBRACE raw
  /\ exists d,
      json_loads rt (_extract_json raw) = Return (PyDict d)
      /\ AnalyzeResult.init (PyDict d) = Return res.
Proof.
  unfold coerce.
  destruct (json_loads rt (_extract_json raw)) as [obj|e] eqn:E; [|discriminate].
  destruct (AnalyzeResult.init obj) as [res'|e] eqn:Ei; [|discriminate].
  intros [= <-].
  destruct obj; try discriminate.
  split; [|now exists d].
  apply extract_json_incl. exact (json_loads_dict_brace rt _ _ E).
Qed.

End CoercionMore.

Lemma coerce_success_witness :
  In LBRACE good_reply.
Proof.
  assert (Hd : (1 <= recursion_limit example_runtime)%nat) by (simpl; lia).
  assert (H : coerce example_runtime good_reply = Return good_result).
  { unfold coerce.
    replace (_extract_json good_reply) with good_object by (vm_compute; reflexivity).
    now rewrite (good_object_loads example_runtime Hd). }
  exact (proj1 (coerce_success example_runtime good_reply good_result H)).
Defined.

(** ** Validation of a result *)

Section InitMore.

Lemma category_literal c :
  literal_of Category.to_str Category.all (Category.to_str c) = Some c.
Proof. destruct c; vm_compute; reflexivity. Qed.

Lemma urgency_literal u :
  literal_of Urgency.to_str Urgency.all (Urgency.to_str u) = Some u.
Proof. destruct u; vm_compute; reflexivity. Qed.

Lemma validate_str_inr v s : validate_str v = inr s <-> v = Some (PyStr s).
Proof.
  unfold validate_str. destruct v as [[]|]; split; intros H;
    try discriminate; congruence.
Qed.

Lemma validate_category_inr v c :
  validate_literal Category.to_str Category.all v = inr c
  <-> v = Some (PyStr (Category.to_str c)).
Proof.
  unfold validate_literal. split.
  - destruct v as [[]|]; try discriminate.
    destruct (literal_of Category.to_str Category.all s) as [a|] eqn:E;
      [|discriminate].
    intros [= <-]. apply literal_of_spelling in E. now subst s.
  - intros ->. now rewrite category_literal.
Qed.

Lemma validate_urgency_inr v u :
  validate_literal Urgency.to_str Urgency.all v = inr u
  <-> v = Some (PyStr (Urgency.to_str u)).
Proof.
  unfold validate_literal. split.
  - destruct v as [[]|]; try discriminate.
    destruct (literal_of Urgency.to_str Urgency.all s) as [a|] eqn:E;
      [|discriminate].
    intros [= <-]. apply literal_of_spelling in E. now subst s.
  - intros ->. now rewrite urgency_literal.
Qed.

(** X15. [AnalyzeResult] accepts an object exactly when it is a mapping
    in which "summary" and "language" are strings, "category" is one of
    "general", "complaint", "request", "other" and "urgency" one of "low",
    "medium", "high"; the result holds these four values as they are.
    Other keys of the mapping play no part. *)
Theorem analyze_result_accepts obj res :
  AnalyzeResult.init obj = Return res
  <-> exists d,
      obj = PyDict d
      /\ dict_lookup d (py "summary") = Some (PyStr (AnalyzeResult.summary res))
      /\ dict_lookup d (py "category")
         = Some (PyStr (Category.to_str (AnalyzeResult.category res)))
      /\ dict_lookup d (py "urgency")
         = Some (PyStr (Urgency.to_str (AnalyzeResult.urgency res)))
      /\ dict_lookup d (py "language") = Some (PyStr (AnalyzeResult.language res)).
Proof.
  split.
  - destruct obj; try discriminate. unfold AnalyzeResult.init.
    destruct (validate_str (dict_lookup d (py "summary"))) as [e|s] eqn:Es;
      [discriminate|].
    destruct (validate_literal Category.to_str Category.all
                (dict_lookup d (py "category"))) as [e|c] eqn:Ec; [discriminate|].
    destruct (validate_literal Urgency.to_str Urgency.all
                (dict_lookup d (py "urgency"))) as [e|u] eqn:Eu; [discriminate|].
    destruct (validate_str (dict_lookup d (py "language"))) as [e|l] eqn:El;
      [discriminate|].
    intros [= <-]. exists d. cbn.
    apply validate_str_inr in Es. apply validate_str_inr in El.
    apply validate_category_inr in Ec. apply validate_urgency_inr in Eu.
    repeat split; assumption.
  - intros (d & -> & Hs & Hc & Hu & Hl). unfold AnalyzeResult.init.
    apply validate_str_inr in Hs. apply validate_str_inr in Hl.
    apply validate_category_inr in Hc. apply validate_urgency_inr in Hu.
    rewrite Hs, Hc, Hu, Hl. now destruct res.
Qed.

(** X16. A mapping that lacks one of the four keys is refused, and the
    validation error names the key as missing. *)
Theorem analyze_result_missing_key d k :
  In k ["summary"; "category"; "urgency"; "language"]%string ->
  dict_lookup d (py k) = None ->
  exists errors,
    AnalyzeResult.init (PyDict d) = Raise (ValidationError errors)
    /\ In (py k, missing) errors.
Proof.
  intros Hk Hnone. unfold AnalyzeResult.init.
  set (s := validate_str (dict_lookup d (py "summary"))).
  set (c := validate_literal Category.to_str Category.all (dict_lookup d (py "category"))).
  set (u := validate_literal Urgency.to_str Urgency.all (dict_lookup d (py "urgency"))).
  set (l := validate_str (dict_lookup d (py "language"))).
  exists (field_errors "summary" s ++ field_errors "category" c
          ++ field_errors "urgency" u ++ field_errors "language" l).
  destruct Hk as [<-|[<-|[<-|[<-|[]]]]].
  - assert (Hs : s = inl missing) by (subst s; now rewrite Hnone).
    rewrite Hs. split; [reflexivity|]. now left.
  - assert (Hc : c = inl missing) by (subst c; now rewrite Hnone).
    rewrite Hc. split; [now destruct s|].
    apply in_or_app. right. now left.
  - assert (Hu : u = inl missing) by (subst u; now rewrite Hnone).
    rewrite Hu. split; [now destruct s, c|].
    apply in_or_app. right. apply in_or_app. right. now left.
  - assert (Hl : l = inl missing) by (subst l; now rewrite Hnone).
    rewrite Hl. split; [now destruct s, c, u|].
    apply in_or_app. right. apply in_or_app. right. apply in_or_app. right. now left.
Qed.

End InitMore.

Lemma analyze_result_missing_key_witness :
  exists errors,
    AnalyzeResult.init (PyDict [(py "summary", PyStr (py "ok"))])
    = Raise (ValidationError errors)
    /\ In (py "urgency", missing) errors.
Proof.
  apply (analyze_result_missing_key [(py "summary", PyStr (py "ok"))] "urgency").
  - right. right. now left.
  - reflexivity.
Defined.

(** ** [chat]: replies that are not strings, statuses, messages, models *)

Section ChatMore.

Variable rt : Runtime.
Variable be : Backend.

(** X17. When the content of the backend's message is not a string (null,
    a number, a list, a mapping), [chat] does not answer: building the
    response fails validation on the field "reply", and nothing catches
    the error.  The request has been sent. *)
Theorem chat_reply_not_string req log r d v :
  be log (chat_request rt req) = Responds r ->
  (status_code r < 400)%Z ->
  json_body r = Return (PyDict d) ->
  reply_content (PyDict d) = Return v ->
  (forall s, v <> PyStr s) ->
  chat rt req be log
  = (Raise (Lib (ValidationError [(py "reply", string_type)])),
     log ++ [chat_request rt req]).
Proof.
  intros Hbe Hst Hj Hc Hv. unfold chat, bind.
  rewrite (post_ollama_ok rt be _ _ log r (PyDict d) Hbe Hst Hj).
  rewrite lift_run, Hc. cbn.
  destruct v; try reflexivity. now destruct (Hv s).
Qed.

(** X18. The one [HTTPException] that [chat] raises has the status 502:
    [chat] never answers 422 or 500 of its own, whatever the request and
    the backend. *)
Theorem chat_status_502 req log code detail :
  fst (chat rt req be log) = Raise (HTTPException code detail) -> code = 502%Z.
Proof.
  unfold chat, bind. rewrite post_ollama_run. cbv zeta.
  destruct (be log _) as [r|info]; [|now intros [= <- _]].
  destruct (400 <=? status_code r)%Z; [now intros [= <- _]|].
  destruct (json_body r) as [data|e]; [|discriminate].
  rewrite lift_run. destruct (reply_content data) as [message|e]; [|discriminate].
  repeat (rewrite lift_run;
          match goal with
          | |- context [py_get ?o ?k ?v] => destruct (py_get o k v)
          end; [|discriminate]).
  rewrite lift_run. destruct (ChatResp.init _ _ _); discriminate.
Qed.

Lemma role_literal r : literal_of Role.to_str Validate.roles (Role.to_str r) = Some r.
Proof. destruct r; vm_compute; reflexivity. Qed.

Lemma chat_message_round_trip m :
  Validate.chat_message (ChatMessage.model_dump m) = Return m.
Proof.
  destruct m as [r c]. unfold ChatMessage.model_dump, Validate.chat_message.
  cbn [ChatMessage.role ChatMessage.content].
  replace (dict_lookup [(py "role", PyStr (Role.to_str r)); (py "content", PyStr c)]
             (py "role")) with (Some (PyStr (Role.to_str r))) by reflexivity.
  replace (dict_lookup [(py "role", PyStr (Role.to_str r)); (py "content", PyStr c)]
             (py "content")) with (Some (PyStr c)) by reflexivity.
  unfold validate_literal. now rewrite role_literal.
Qed.

(** X19. [chat] forwards the messages as they are: a dumped message
    validates back to the message it came from, and the "messages" of the
    payload are the dumps of the request's messages, as many and in the
    same order, so that validating them one by one gives the request's
    messages back. *)
Theorem chat_forwards_messages req :
  (forall m, Validate.chat_message (ChatMessage.model_dump m) = Return m)
  /\ exists l,
      py_get (chat_payload rt req) "messages" PyNone = Return (PyList l)
      /\ List.length l = List.length (ChatReq.messages req)
      /\ map Validate.chat_message l = map Return (ChatReq.messages req).
Proof.
  split; [exact chat_message_round_trip|].
  exists (map ChatMessage.model_dump (ChatReq.messages req)).
  split; [reflexivity|]. split; [apply length_map|].
  rewrite map_map. apply map_ext. exact chat_message_round_trip.
Qed.

(** X20. The model that a successful response names is the model named in
    the request to the backend: the model of the request when it has one
    that is not the empty string, and [DEFAULT_MODEL] otherwise; this for
    [chat] and for [analyze_get]. *)
Theorem response_names_requested_model log :
  (forall req resp,
      fst (chat rt req be log) = Return resp ->
      ChatResp.model resp = str_or (ChatReq.model req) (DEFAULT_MODEL rt)
      /\ py_get (json (chat_request rt req)) "model" PyNone
         = Return (PyStr (ChatResp.model resp)))
  /\ (forall text language model resp,
         fst (analyze_get rt text language model be log) = Return resp ->
         AnalyzeResp.model resp = str_or model (DEFAULT_MODEL rt)
         /\ py_get (json (analyze_request rt text language model)) "model" PyNone
            = Return (PyStr (AnalyzeResp.model resp)))
  /\ str_or None (DEFAULT_MODEL rt) = DEFAULT_MODEL rt
  /\ str_or (Some []) (DEFAULT_MODEL rt) = DEFAULT_MODEL rt
  /\ (forall c m, str_or (Some (c :: m)) (DEFAULT_MODEL rt) = c :: m).
Proof.
  repeat apply conj; try reflexivity.
  - intros req resp. unfold chat, bind.
    destruct (_post_ollama rt (py "/api/chat") (chat_payload rt req) be log)
      as [[data|e] log']; [|discriminate].
    rewrite lift_run. destruct (reply_content data) as [message|e]; [|discriminate].
    repeat (rewrite lift_run;
            match goal with
            | |- context [py_get ?o ?k ?v] => destruct (py_get o k v)
            end; [|discriminate]).
    rewrite lift_run. unfold ChatResp.init.
    destruct message; try discriminate. cbn [fst].
    intros [= <-]. split; reflexivity.
  - intros text language model resp. unfold analyze_get, bind.
    destruct (_analyze_once rt text language model be log) as [[res|e] log'];
      [|discriminate].
    cbn. intros [= <-]. split; reflexivity.
Qed.

End ChatMore.

Lemma chat_reply_not_string_witness :
  chat example_runtime (ChatReq.defaults [])
    (backend_answers 200 []
       (Return (PyDict [(py "message", PyDict [(py "content", PyNone)])]))) []
  = (Raise (Lib (ValidationError [(py "reply", string_type)])),
     [chat_request example_runtime (ChatReq.defaults [])]).
Proof.
  apply (chat_reply_not_string example_runtime
           (backend_answers 200 []
              (Return (PyDict [(py "message", PyDict [(py "content", PyNone)])])))
           (ChatReq.defaults []) []
           {| status_code := 200; text := [];
              json_body :=
                Return (PyDict [(py "message", PyDict [(py "content", PyNone)])]) |}
           [(py "message", PyDict [(py "content", PyNone)])] PyNone).
  - reflexivity.
  - simpl. lia.
  - reflexivity.
  - reflexivity.
  - discriminate.
Defined.

Lemma chat_status_502_witness :
  exists code detail,
    fst (chat example_runtime (ChatReq.defaults []) backend_down [])
    = Raise (HTTPException code detail)
    /\ code = 502%Z.
Proof.
  exists 502%Z, [FStr (py "Ollama unreachable: ");
                 FExc (RequestException (py "connection refused"))].
  split; [reflexivity|].
  exact (chat_status_502 example_runtime backend_down (ChatReq.defaults []) []
           502 [FStr (py "Ollama unreachable: ");
                FExc (RequestException (py "connection refused"))] eq_refl).
Defined.

(** ** The analyze routes: what is refused before the handler *)

Section Routes.

Variable rt : Runtime.
Variable be : Backend.

Lemma lang_literal l : literal_of Lang.to_str Validate.langs (Lang.to_str l) = Some l.
Proof. destruct l; vm_compute; reflexivity. Qed.

Lemma lang_rejected s :
  (forall l, s <> Lang.to_str l) ->
  literal_of Lang.to_str Validate.langs s = None.
Proof.
  intros H. destruct (literal_of Lang.to_str Validate.langs s) as [l|] eqn:E;
    [|reflexivity].
  apply literal_of_spelling in E. now destruct (H l).
Qed.

(** X21. [POST /v1/analyze] refuses, before the handler runs and without
    any request to the backend, a body that is not an object, a body
    without "text", and a body whose "language" is a string other than
    "th", "en", "auto" and "multi" spelled exactly so: the schema, unlike
    the handler, does not lowercase, and "TH" is refused here. *)
Theorem post_analyze_refused log :
  (forall body,
      (forall d, body <> PyDict d) ->
      post_v1_analyze rt body be log = (inl Validate.body_not_object, log))
  /\ (forall d,
         dict_lookup d (py "text") = None ->
         exists errors,
           post_v1_analyze rt (PyDict d) be log = (inl (Validate.body_fields errors), log)
           /\ In (py "text", missing) errors)
  /\ (forall d s,
         dict_lookup d (py "language") = Some (PyStr s) ->
         (forall l, s <> Lang.to_str l) ->
         exists errors,
           post_v1_analyze rt (PyDict d) be log = (inl (Validate.body_fields errors), log)
           /\ In (py "language", literal_error) errors).
Proof.
  repeat apply conj.
  - intros body Hd. unfold post_v1_analyze.
    destruct body; try reflexivity. now destruct (Hd d).
  - intros d Ht. unfold post_v1_analyze, Validate.analyze_req. rewrite Ht.
    cbn [validate_str]. eexists. split; [reflexivity|]. now left.
  - intros d s Hl Hs. unfold post_v1_analyze, Validate.analyze_req. rewrite Hl.
    unfold Validate.literal_or, validate_literal. rewrite (lang_rejected s Hs).
    set (t := validate_str (dict_lookup d (py "text"))).
    set (m := Validate.optional_str (dict_lookup d (py "model"))).
    exists (field_errors "text" t
            ++ field_errors "language" (@inl _ Lang.t literal_error)
            ++ field_errors "model" m).
    split; [now destruct t|].
    apply in_or_app. right. now left.
Qed.

(** X22. A body with a string as "text" and neither "language" nor
    "model" is handled as the GET request for that text, the language
    "auto" and no model. *)
Theorem post_analyze_defaults d t log :
  dict_lookup d (py "text") = Some (PyStr t) ->
  dict_lookup d (py "language") = None ->
  dict_lookup d (py "model") = None ->
  post_v1_analyze rt (PyDict d) be log
  = handled (analyze_get rt t (py "auto") None) be log.
Proof.
  intros Ht Hl Hm. unfold post_v1_analyze, Validate.analyze_req.
  rewrite Ht, Hl, Hm. reflexivity.
Qed.

(** X23. [GET /v1/analyze] refuses a request without text, and one whose
    text is empty, before the handler runs and without any request to the
    backend.  With a text, leaving the language out, giving it empty and
    giving "auto" are the same request. *)
Theorem get_analyze_text_and_language log :
  (forall language model,
      get_v1_analyze rt None language model be log
      = (inl (Validate.query_missing (py "text")), log))
  /\ (forall language model,
         get_v1_analyze rt (Some []) language model be log
         = (inl (Validate.query_too_short (py "text")), log))
  /\ (forall text model,
         get_v1_analyze rt (Some text) None model be log
         = get_v1_analyze rt (Some text) (Some (py "auto")) model be log
         /\ get_v1_analyze rt (Some text) (Some []) model be log
            = get_v1_analyze rt (Some text) (Some (py "auto")) model be log).
Proof.
  repeat apply conj; try reflexivity.
  intros text model. destruct text as [|c t]; split; reflexivity.
Qed.

End Routes.

Lemma post_analyze_refused_witness :
  exists errors,
    post_v1_analyze example_runtime
      (PyDict [(py "text", PyStr (py "hello")); (py "language", PyStr (py "TH"))])
      backend_down []
    = (inl (Validate.body_fields errors), [])
    /\ In (py "language", literal_error) errors.
Proof.
  destruct (post_analyze_refused example_runtime backend_down []) as (_ & _ & H).
  apply (H _ (py "TH")); [reflexivity|].
  intros l Hl. destruct l; vm_compute in Hl; discriminate.
Defined.

Lemma post_analyze_defaults_witness :
  post_v1_analyze example_runtime (PyDict [(py "text", PyStr (py "hello"))])
    backend_down []
  = handled (analyze_get example_runtime (py "hello") (py "auto") None) backend_down [].
Proof.
  apply (post_analyze_defaults example_runtime backend_down
           [(py "text", PyStr (py "hello"))] (py "hello") []); reflexivity.
Defined.

Section PostReaches.

Variable rt : Runtime.
Variable be : Backend.

Hypothesis lower_ascii : forall s, is_ascii s -> str_lower rt s = ascii_lower s.

Lemma normalize_lang l : normalize_language rt (Lang.to_str l) = Lang.to_str l.
Proof.
  unfold normalize_language.
  destruct l; (rewrite lower_ascii; [reflexivity|vm_compute; repeat constructor]).
Qed.

(** X24. A body that passes the validation of [POST /v1/analyze] leads to
    one request to the backend, the request of the analysis, unless its
    language is "multi", which leads to none.  With X21 this tells for
    every body how many requests the route sends. *)
Theorem post_analyze_requests body req log :
  Validate.analyze_req body = inr req ->
  snd (post_v1_analyze rt body be log)
  = match AnalyzeReq.language req with
    | Lang.multi => log
    | _ => log ++ [analyze_request rt (AnalyzeReq.text req)
                     (Lang.to_str (AnalyzeReq.language req)) (AnalyzeReq.model req)]
    end.
Proof.
  intros H. unfold post_v1_analyze. rewrite H. unfold handled.
  destruct (analyze rt req be log) as [r log'] eqn:E. cbn [snd].
  assert (Hl : log' = snd (analyze rt req be log)) by now rewrite E.
  rewrite Hl. clear E Hl. unfold analyze, bind.
  pose proof (analyze_once_log rt be (AnalyzeReq.text req)
                (Lang.to_str (AnalyzeReq.language req)) (AnalyzeReq.model req) log) as Hs.
  destruct (_analyze_once rt (AnalyzeReq.text req)
              (Lang.to_str (AnalyzeReq.language req)) (AnalyzeReq.model req) be log)
    as [[res|e] log'']; cbn [snd] in *; rewrite Hs, normalize_lang;
    now destruct (AnalyzeReq.language req).
Qed.

End PostReaches.

Lemma post_analyze_requests_witness :
  snd (post_v1_analyze example_runtime
         (PyDict [(py "text", PyStr (py "hello")); (py "language", PyStr (py "th"))])
         backend_down [])
  = [analyze_request example_runtime (py "hello") (py "th") None].
Proof.
  apply (post_analyze_requests example_runtime backend_down (fun s _ => eq_refl)
           (PyDict [(py "text", PyStr (py "hello")); (py "language", PyStr (py "th"))])
           {| AnalyzeReq.text := py "hello"; AnalyzeReq.language := Lang.th;
              AnalyzeReq.model := None |} []).
  reflexivity.
Defined.

(** ** The raw reply is stripped *)

Section Stripped.

Lemma lstrip_idem s : lstrip (lstrip s) = lstrip s.
Proof.
  induction s as [|c s IH]; [reflexivity|]. cbn [lstrip].
  destruct (is_space c) eqn:E; [exact IH|]. cbn [lstrip]. now rewrite E.
Qed.

Lemma lstrip_length s : (List.length (lstrip s) <= List.length s)%nat.
Proof.
  induction s as [|c s IH]; [simpl; lia|]. cbn [lstrip].
  destruct (is_space c); simpl in *; lia.
Qed.

Lemma lstrip_fixed_head c s : lstrip (c :: s) = c :: s -> is_space c = false.
Proof.
  cbn [lstrip]. destruct (is_space c); [|reflexivity].
  intros H. pose proof (lstrip_length s) as Hl. rewrite H in Hl. simpl in Hl. lia.
Qed.

Lemma lstrip_split s :
  exists ws, s = ws ++ lstrip s /\ Forall (fun c => is_space c = true) ws.
Proof.
  induction s as [|c s (ws & Hs & Hw)]; [now exists []|]. cbn [lstrip].
  destruct (is_space c) eqn:E.
  - exists (c :: ws). split; [cbn; now f_equal|now constructor].
  - now exists [].
Qed.

Lemma lstrip_rstrip_lstrip s : lstrip (rstrip (lstrip s)) = rstrip (lstrip s).
Proof.
  unfold rstrip. set (t := lstrip s).
  assert (Ht : lstrip t = t) by apply lstrip_idem.
  destruct (lstrip_split (rev t)) as (ws & Hs & Hw).
  set (u := lstrip (rev t)) in *.
  assert (Hrev : t = rev u ++ rev ws).
  { rewrite <- rev_app_distr, <- Hs. symmetry. apply rev_involutive. }
  destruct (rev u) as [|h r] eqn:Eu; [reflexivity|].
  rewrite Hrev in Ht. cbn [app] in Ht.
  apply lstrip_fixed_head in Ht. cbn [lstrip]. now rewrite Ht.
Qed.

Lemma strip_fixed s :
  lstrip s = s -> lstrip (rev s) = rev s -> strip s = s.
Proof.
  intros H1 H2. unfold strip, rstrip. rewrite H1, H2. apply rev_involutive.
Qed.

Lemma strip_idem s : strip (strip s) = strip s.
Proof.
  apply strip_fixed.
  - unfold strip. apply lstrip_rstrip_lstrip.
  - unfold strip, rstrip. rewrite rev_involutive. apply lstrip_idem.
Qed.

Lemma strip_edges s c t :
  strip s = c :: t -> is_space c = false /\ is_space (last (c :: t) c) = false.
Proof.
  intros H. split.
  - apply (lstrip_fixed_head c t). rewrite <- H. unfold strip.
    apply lstrip_rstrip_lstrip.
  - assert (Hr : lstrip (rev (c :: t)) = rev (c :: t)).
    { rewrite <- H. unfold strip, rstrip. rewrite rev_involutive. apply lstrip_idem. }
    destruct (rev (c :: t)) as [|h r] eqn:E.
    + apply (f_equal (@List.length char)) in E. rewrite length_rev in E. discriminate.
    + apply lstrip_fixed_head in Hr.
      assert (Hl : c :: t = rev r ++ [h]).
      { rewrite <- (rev_involutive (c :: t)), E. reflexivity. }
      rewrite Hl, last_last. exact Hr.
Qed.

(** X25. The raw reply that [_analyze_once] extracts from is stripped: it
    is empty, or its first and its last character are not white space, and
    stripping it again changes nothing. *)
Theorem reply_text_stripped data raw :
  reply_text data = Return raw ->
  strip raw = raw
  /\ (raw = []
      \/ exists c t,
          raw = c :: t /\ is_space c = false /\ is_space (last raw c) = false).
Proof.
  unfold reply_text. destruct (reply_content data) as [content|e]; [|discriminate].
  unfold py_strip. destruct content; try discriminate. intros [= <-].
  split; [apply strip_idem|].
  destruct (strip s) as [|c t] eqn:E; [now left|].
  right. exists c, t. split; [reflexivity|]. exact (strip_edges s c t E).
Qed.

End Stripped.

Lemma reply_text_stripped_witness :
  strip (py "ok") = py "ok".
Proof.
  assert (H : reply_text (reply_data (py "  ok
 ")) = Return (py "ok")) by (vm_compute; reflexivity).
  exact (proj1 (reply_text_stripped _ _ H)).
Defined.

(** ** What a result of [_analyze_once] implies *)

Section AnalyzeSuccess.

Variable rt : Runtime.
Variable be : Backend.

(** X26. [_analyze_once] returns a result only when every step went
    through: the language was accepted, the backend answered the one
    request with a status below 400 and a body that decodes, the body held
    a raw reply, and that reply, which holds an opening brace, was coerced
    to the result. *)
Theorem analyze_once_success text language model log res :
  fst (_analyze_once rt text language model be log) = Return res ->
  language_accepted (normalize_language rt language) = true
  /\ exists raw,
      replies_with be log (analyze_request rt text language model) raw
      /\ coerce rt raw = Return res
      /\ In LBRACE raw
      /\ snd (_analyze_once rt text language model be log)
         = log ++ [analyze_request rt text language model].
Proof.
  rewrite analyze_once_log. unfold _analyze_once.
  destruct (language_accepted (normalize_language rt language)); [|discriminate].
  cbn [negb]. unfold bind. rewrite post_ollama_run. cbv zeta.
  fold (analyze_request rt text language model). unfold replies_with.
  destruct (be log (analyze_request rt text language model)) as [r|info] eqn:Hbe;
    [|discriminate].
  destruct (400 <=? status_code r)%Z eqn:Hst; [discriminate|].
  destruct (json_body r) as [data|e] eqn:Hj; [|discriminate].
  rewrite lift_run. destruct (reply_text data) as [raw|e] eqn:Hraw; [|discriminate].
  cbn [fst]. intros Hc. split; [reflexivity|].
  exists raw. repeat split; trivial.
  - exists r, data. repeat split; trivial. now apply Z.leb_gt.
  - unfold coerce in Hc.
    destruct (json_loads rt (_extract_json raw)) as [obj|e] eqn:E; [|discriminate].
    destruct (AnalyzeResult.init obj) as [res'|e] eqn:Ei; [|discriminate].
    destruct obj; try discriminate.
    apply (extract_json_incl LBRACE raw). exact (json_loads_dict_brace rt _ _ E).
Qed.

End AnalyzeSuccess.

Lemma analyze_once_success_witness :
  In LBRACE good_reply.
Proof.
  assert (H : fst (_analyze_once example_runtime (py "hi") (py "en") None
                     (backend_answers 200 [] (Return (reply_data good_reply))) [])
              = Return good_result) by (vm_compute; reflexivity).
  destruct (analyze_once_success example_runtime
              (backend_answers 200 [] (Return (reply_data good_reply)))
              (py "hi") (py "en") None [] good_result H)
    as (_ & raw & (r & data & Hbe & _ & Hj & Hraw) & _ & Hin & _).
  injection Hbe as <-. cbn in Hj. injection Hj as <-.
  vm_compute in Hraw. injection Hraw as <-. exact Hin.
Defined.

(** ** Replies without braces on both sides of the coercion's split *)

(** What [json.loads] does, not what JSON is, decides between the two
    errors: "NaN" is no JSON text, yet it is decoded, to a float, and the
    error is the shape mismatch; a number of 4301 digits is a JSON text,
    yet [int] refuses it with [ValueError], and the error is the invalid
    JSON one. *)
Example no_brace_replies_by_loads_outcome :
  json_loads example_runtime (py "NaN") = Return (PyFloat S754_nan)
  /\ coerce example_runtime (py "NaN")
     = Raise (HTTPException 500
                [FStr (py "JSON shape mismatch: "); FExc TypeError;
                 FStr (py " | raw="); FStr (py "NaN")])
  /\ json_loads example_runtime (repeat (ch "1") 4301) = Raise ValueError
  /\ coerce example_runtime (repeat (ch "1") 4301)
     = Raise (HTTPException 500
                [FStr (py "Model returned invalid JSON: "); FExc ValueError;
                 FStr (py " | raw="); FStr (repeat (ch "1") 200)]).
Proof. repeat apply conj; vm_compute; reflexivity. Qed.
